(** * Zettelkasten AI plugin: a shallow embedding of the orchestration core

    The development follows [src/obsidian_zettelkasten_plugin.ts]:
    the similarity estimator ([AIService.calculateSimilarity]), the
    generation client ([AIService.callLLM]), the Connect workflow
    ([AIService.findSimilarNotes]), the scans of the permanent notes
    ([identifyWritingTopics], [findOrphanedNotes]) and the two plugin
    workflows Capture ([createFleetingNote]) and Promote
    ([processCurrentNoteToPermanent]) with the front-matter extractor.

    Modelling choices.
    - A text is a [string] whose characters are the code units
      U+0000..U+00FF; lower-casing, [\s] and [trim] are the ECMAScript
      ones restricted to that range.
    - A JavaScript number is a reduced rational or one of the three
      non-finite values; the quotient of two array lengths is the exact
      quotient (the rounding of the double division is monotone and exact
      at 0, 1 and 2; the statements compare scores with these, with the
      threshold and with one another).
    - Asynchronous host calls are sequenced in a state-and-exception
      monad over a [Host] record: the vault, the clock, the remote
      endpoint and the trace of effects performed so far. *)

From Stdlib Require Import QArith Qreduction Lqa Ascii Sorted.
From stdpp Require Import gmap strings list.

Local Open Scope string_scope.
Local Open Scope list_scope.

(** ** The string runtime *)

Module Js.

Definition LF : ascii := "010"%char.

Definition isWhiteSpace (c : ascii) : bool :=
  let n := N_of_ascii c in
  (((9 <=? n) && (n <=? 13)) || (n =? 32) || (n =? 160))%N.

(** [.] of a regular expression without the [s] flag stops at these. *)
Definition isLineTerminator (c : ascii) : bool :=
  let n := N_of_ascii c in ((n =? 10) || (n =? 13))%N.

Definition lowerChar (c : ascii) : ascii :=
  let n := N_of_ascii c in
  if (((65 <=? n) && (n <=? 90))
      || ((192 <=? n) && (n <=? 222) && negb (n =? 215)))%N
  then ascii_of_N (n + 32) else c.

Fixpoint toLowerCase (s : string) : string :=
  match s with
  | EmptyString => EmptyString
  | String c r => String (lowerChar c) (toLowerCase r)
  end.

(** [s.split(/\s+/)]: [cur] is the piece being read, [inRun] tells that the
    previous character belonged to a separator. *)
Fixpoint splitWs_from (cur : string) (inRun : bool) (s : string) : list string :=
  match s with
  | EmptyString => [cur]
  | String c r =>
      if isWhiteSpace c
      then (if inRun then splitWs_from EmptyString true r
            else cur :: splitWs_from EmptyString true r)
      else splitWs_from (cur +:+ String c EmptyString) false r
  end.

Definition splitWs (s : string) : list string := splitWs_from EmptyString false s.

(** [s.split(sep)] for a separator of one character. *)
Fixpoint splitChar_from (sep : ascii) (cur : string) (s : string) : list string :=
  match s with
  | EmptyString => [cur]
  | String c r =>
      if Ascii.eqb c sep then cur :: splitChar_from sep EmptyString r
      else splitChar_from sep (cur +:+ String c EmptyString) r
  end.

Definition splitChar (sep : ascii) (s : string) : list string :=
  splitChar_from sep EmptyString s.

Fixpoint includesChar (sep : ascii) (s : string) : bool :=
  match s with
  | EmptyString => false
  | String c r => Ascii.eqb c sep || includesChar sep r
  end.

Definition join (sep : string) (l : list string) : string := String.concat sep l.

Fixpoint trimStart (s : string) : string :=
  match s with
  | EmptyString => EmptyString
  | String c r => if isWhiteSpace c then trimStart r else s
  end.

Fixpoint trimEnd (s : string) : string :=
  match s with
  | EmptyString => EmptyString
  | String c r =>
      match trimEnd r with
      | EmptyString => if isWhiteSpace c then EmptyString else String c EmptyString
      | r' => String c r'
      end
  end.

Definition trim (s : string) : string := trimEnd (trimStart s).

Fixpoint startsWith (s pre : string) : bool :=
  match pre, s with
  | EmptyString, _ => true
  | String _ _, EmptyString => false
  | String p pre', String c r => Ascii.eqb c p && startsWith r pre'
  end.

(** [s.slice(0, n)] *)
Definition sliceTo (n : nat) (s : string) : string := String.substring 0 n s.

Fixpoint dropChars (n : nat) (s : string) : string :=
  match n, s with
  | S k, String _ r => dropChars k r
  | _, _ => s
  end.

(** [arr.includes(w)] on an array of strings. *)
Definition includes (l : list string) (w : string) : bool := bool_decide (w ∈ l).

(** [[...new Set(l)]]: the first occurrence of every element, in order. *)
Fixpoint setOf_from (seen : list string) (l : list string) : list string :=
  match l with
  | [] => []
  | x :: r =>
      if includes seen x then setOf_from seen r
      else x :: setOf_from (x :: seen) r
  end.

Definition setOf (l : list string) : list string := setOf_from [] l.

(** *** Numbers *)

Inductive number : Type :=
| Num (q : Q)
| PosInfinity
| NegInfinity
| NaN.

(** [n / m] for two array lengths. *)
Definition divLengths (n m : nat) : number :=
  match m, n with
  | O, O => NaN
  | O, S _ => PosInfinity
  | S _, _ => Num (Qred (Z.of_nat n # Pos.of_nat m))
  end.

Definition Qlt_bool (x y : Q) : bool := negb (Qle_bool y x).

(** [x > y] *)
Definition gt (x y : number) : bool :=
  match x, y with
  | NaN, _ | _, NaN => false
  | NegInfinity, _ => false
  | _, PosInfinity => false
  | PosInfinity, _ => true
  | Num _, NegInfinity => true
  | Num a, Num b => Qlt_bool b a
  end.

(** [x <= y] *)
Definition le (x y : number) : bool :=
  match x, y with
  | NaN, _ | _, NaN => false
  | NegInfinity, _ => true
  | _, PosInfinity => true
  | PosInfinity, _ => false
  | Num _, NegInfinity => false
  | Num a, Num b => Qle_bool a b
  end.

(** [x - y] *)
Definition sub (x y : number) : number :=
  match x, y with
  | NaN, _ | _, NaN => NaN
  | PosInfinity, PosInfinity | NegInfinity, NegInfinity => NaN
  | PosInfinity, _ | _, NegInfinity => PosInfinity
  | NegInfinity, _ | _, PosInfinity => NegInfinity
  | Num a, Num b => Num (Qred (a - b))
  end.

(** *** [Array.prototype.sort(cmp)]

    The sort is stable and a comparator result that is negative puts the
    first argument first; zero and [NaN] leave the two in their order. *)
Section Sort.
Context {A : Type} (cmp : A -> A -> number).

Definition comesAfter (x y : A) : bool := gt (cmp x y) (Num 0).

Fixpoint insertSorted (x : A) (l : list A) : list A :=
  match l with
  | [] => [x]
  | y :: r => if comesAfter x y then y :: insertSorted x r else x :: y :: r
  end.

Fixpoint sort (l : list A) : list A :=
  match l with
  | [] => []
  | x :: r => insertSorted x (sort r)
  end.
End Sort.

End Js.

(** ** The similarity estimator *)

Definition words (content : string) : list string :=
  Js.splitWs (Js.toLowerCase content).

Definition intersectionOf (words1 words2 : list string) : list string :=
  List.filter (Js.includes words2) words1.

Definition unionOf (words1 words2 : list string) : list string :=
  Js.setOf (words1 ++ words2).

Definition calculateSimilarity (content1 content2 : string) : Js.number :=
  let words1 := words content1 in
  let words2 := words content2 in
  let intersection := intersectionOf words1 words2 in
  let union := unionOf words1 words2 in
  Js.divLengths (length intersection) (length union).

(** ** Parsed JSON data and the completion extractor *)

#[local] Set Warnings "-register-all".

Inductive json : Type :=
| JNull
| JBool (b : bool)
| JNum (q : Q)
| JStr (s : string)
| JArr (items : list json)
| JObj (fields : list (string * json)).

(** An own property of a parsed object; of two equal keys the later one
    is the one [JSON.parse] keeps. *)
Fixpoint lookupField (k : string) (fields : list (string * json)) : option json :=
  match fields with
  | [] => None
  | (k', v) :: r =>
      match lookupField k r with
      | Some v' => Some v'
      | None => if String.eqb k k' then Some v else None
      end
  end.

(** A JavaScript value that came out of parsed data: [None] is [undefined]. *)
Definition value : Type := option json.

(** [v.name], for the names the client reads ([choices], [message],
    [content], [text]): none of them is a property of an array, a string, a
    number or a boolean, nor of a prototype. *)
Definition getMember (name : string) (v : json) : value :=
  match v with
  | JObj fields => lookupField name fields
  | _ => None
  end.

(** [v[0]] *)
Definition getIndex0 (v : json) : value :=
  match v with
  | JArr (x :: _) => Some x
  | JObj fields => lookupField "0" fields
  | JStr (String c _) => Some (JStr (String c EmptyString))
  | _ => None
  end.

(** [v?.p]: [undefined] when [v] is [null] or [undefined]. *)
Definition optChain (v : value) (get : json -> value) : value :=
  match v with
  | None | Some JNull => None
  | Some x => get x
  end.

Definition truthy (v : value) : bool :=
  match v with
  | None | Some JNull => false
  | Some (JBool b) => b
  | Some (JNum q) => negb (Qeq_bool q 0)
  | Some (JStr EmptyString) => false
  | Some (JStr (String _ _)) => true
  | Some (JArr _) | Some (JObj _) => true
  end.

(** [a || b] *)
Definition orElse (a b : value) : value := if truthy a then a else b.

(** [data.choices?.[0]?.message?.content] *)
Definition chatCompletionPath (data : json) : value :=
  optChain (optChain (optChain (getMember "choices" data) getIndex0)
                     (getMember "message"))
           (getMember "content").

(** [data.content?.[0]?.text] *)
Definition messagesPath (data : json) : value :=
  optChain (optChain (getMember "content" data) getIndex0) (getMember "text").

(** [data.choices?.[0]?.message?.content || data.content?.[0]?.text || ''] *)
Definition extractCompletion (data : json) : value :=
  orElse (orElse (chatCompletionPath data) (messagesPath data))
         (Some (JStr EmptyString)).

(** ** The host: vault, clock, remote endpoint and the trace of effects *)

Record TFile : Type := { path : string; name : string }.

Inductive Provider : Type := openai | anthropic | local.

Record ZettelkastenSettings : Type := {
  apiKey : string;
  apiProvider : Provider;
  apiEndpoint : string;
  fleetingNotesFolder : string;
  permanentNotesFolder : string;
  structureNotesFolder : string;
  autoProcess : bool;
  connectionThreshold : Js.number
}.

Definition DEFAULT_SETTINGS : ZettelkastenSettings := {|
  apiKey := EmptyString;
  apiProvider := openai;
  apiEndpoint := "https://api.openai.com/v1/chat/completions";
  fleetingNotesFolder := "Fleeting Notes";
  permanentNotesFolder := "Permanent Notes";
  structureNotesFolder := "Structure Notes";
  autoProcess := false;
  connectionThreshold := Js.Num (7 # 10)
|}.

(** The request handed to [fetch]: the endpoint, the two headers and the
    fields of the JSON body. *)
Record Request : Type := {
  url : string;
  contentType : string;
  authorization : string;
  model : string;
  userMessage : string;
  max_tokens : nat;
  temperature : Q
}.

Inductive Response : Type :=
| NetworkFailure (msg : string)
| NotJson (msg : string)
| JsonBody (data : json).

Record Connection : Type := {
  file : string;
  similarity : Js.number;
  reason : value
}.

Inductive ModalView : Type :=
| InputModal (prompt : string)
| ProcessingModal (source : TFile) (content : string)
| ConnectionsModal (connections : list Connection).

Inductive Event : Type :=
| VaultRead (p : string)
| VaultCreateFolder (p : string)
| VaultCreate (p content : string)
| VaultModify (p content : string)
| HttpPost (r : Request)
| ShowNotice (msg : string)
| OpenModal (m : ModalView)
| ConsoleError (msg : string).

Definition isVaultWrite (e : Event) : bool :=
  match e with
  | VaultCreateFolder _ | VaultCreate _ _ | VaultModify _ _ => true
  | _ => false
  end.

Definition isHttpPost (e : Event) : bool :=
  match e with HttpPost _ => true | _ => false end.

Record Host : Type := {
  files : list (TFile * string);
  folders : list string;
  activeFile : option TFile;
  ticks : nat;
  clock : nat -> string;
  remote : nat -> Request -> Response;
  trace : list Event
}.

Definition vaultWrites (h : Host) : list Event := List.filter isVaultWrite (trace h).
Definition httpPosts (h : Host) : list Event := List.filter isHttpPost (trace h).

Inductive Completion (A : Type) : Type :=
| Returned (a : A)
| Thrown (msg : string).
Arguments Returned {A} a.
Arguments Thrown {A} msg.

Definition Async (A : Type) : Type := Host -> Completion A * Host.

#[global] Instance Async_ret : MRet Async := fun A a h => (Returned a, h).
#[global] Instance Async_bind : MBind Async := fun A B k m h =>
  match m h with
  | (Returned a, h') => k a h'
  | (Thrown msg, h') => (Thrown msg, h')
  end.

Definition throw {A : Type} (msg : string) : Async A := fun h => (Thrown msg, h).

Definition emit (e : Event) : Async unit := fun h =>
  (Returned tt,
   {| files := files h; folders := folders h; activeFile := activeFile h;
      ticks := ticks h; clock := clock h; remote := remote h;
      trace := trace h ++ [e] |}).

Definition withTrace (h : Host) (t : list Event) : Host :=
  {| files := files h; folders := folders h; activeFile := activeFile h;
     ticks := ticks h; clock := clock h; remote := remote h; trace := t |}.

(** [new Date().toISOString()] *)
Definition nowISO : Async string := fun h =>
  (Returned (clock h (ticks h)),
   {| files := files h; folders := folders h; activeFile := activeFile h;
      ticks := S (ticks h); clock := clock h; remote := remote h;
      trace := trace h |}).

Definition notice (msg : string) : Async unit := emit (ShowNotice msg).
Definition openModal (m : ModalView) : Async unit := emit (OpenModal m).
Definition consoleError (msg : string) : Async unit := emit (ConsoleError msg).

(** [app.workspace.getActiveFile()] *)
Definition getActiveFile : Async (option TFile) := fun h => (Returned (activeFile h), h).

(** [app.vault.getFiles()] *)
Definition getFiles : Async (list TFile) := fun h => (Returned (List.map fst (files h)), h).

Fixpoint contentAt (p : string) (fs : list (TFile * string)) : option string :=
  match fs with
  | [] => None
  | (f, c) :: r => if String.eqb (path f) p then Some c else contentAt p r
  end.

(** [app.vault.read(f)] in two halves: the request reaches the vault when
    the call is made, the text arrives when the promise is awaited. *)
Definition readStart (f : TFile) : Async unit := emit (VaultRead (path f)).

Definition readResult (f : TFile) : Async string := fun h =>
  match contentAt (path f) (files h) with
  | Some c => (Returned c, h)
  | None => (Thrown "File not found", h)
  end.

Definition vaultRead (f : TFile) : Async string := readStart f ;; readResult f.

(** [Promise.all(fs.map(f => app.vault.read(f)))]: every read is issued
    before the first one is awaited. *)
Fixpoint forEach {A : Type} (act : A -> Async unit) (l : list A) : Async unit :=
  match l with
  | [] => mret tt
  | x :: r => act x ;; forEach act r
  end.

Fixpoint collect {A B : Type} (act : A -> Async B) (l : list A) : Async (list B) :=
  match l with
  | [] => mret []
  | x :: r => y ← act x; ys ← collect act r; mret (y :: ys)
  end.

Definition readAll (fs : list TFile) : Async (list string) :=
  forEach readStart fs ;; collect readResult fs.

(** [app.vault.adapter.exists(p)] *)
Definition adapterExists (p : string) : Async bool := fun h =>
  (Returned (bool_decide (p ∈ folders h)
             || bool_decide (p ∈ List.map (fun fc => path (fst fc)) (files h))), h).

(** [app.vault.createFolder(p)] *)
Definition createFolder (p : string) : Async unit := fun h =>
  if bool_decide (p ∈ folders h) then (Thrown "Folder already exists.", h)
  else (Returned tt,
        {| files := files h; folders := folders h ++ [p];
           activeFile := activeFile h; ticks := ticks h; clock := clock h;
           remote := remote h; trace := trace h ++ [VaultCreateFolder p] |}).

Fixpoint afterLastSlash_from (cur : string) (s : string) : string :=
  match s with
  | EmptyString => cur
  | String c r =>
      if Ascii.eqb c "/" then afterLastSlash_from EmptyString r
      else afterLastSlash_from (cur +:+ String c EmptyString) r
  end.

(** The [name] the vault gives the file at a path: its last segment. *)
Definition fileNameOf (p : string) : string := afterLastSlash_from EmptyString p.

(** [app.vault.create(p, content)] *)
Definition vaultCreate (p content : string) : Async TFile := fun h =>
  if bool_decide (p ∈ List.map (fun fc => path (fst fc)) (files h))
  then (Thrown "File already exists.", h)
  else let f := {| path := p; name := fileNameOf p |} in
       (Returned f,
        {| files := files h ++ [(f, content)]; folders := folders h;
           activeFile := activeFile h; ticks := ticks h; clock := clock h;
           remote := remote h; trace := trace h ++ [VaultCreate p content] |}).

(** [fetch(endpoint, {method: 'POST', ...})] followed by [response.json()] *)
Definition postJson (r : Request) : Async Response := fun h =>
  (Returned (remote h (length (httpPosts h)) r),
   withTrace h (trace h ++ [HttpPost r])).

(** ** AIService *)

Definition modelFor (p : Provider) : string :=
  match p with
  | openai => "gpt-4"
  | _ => "claude-3-sonnet-20240229"
  end.

Definition isEmpty (s : string) : bool :=
  match s with EmptyString => true | _ => false end.

(** The headers and the body of the request. *)
Definition requestFor (settings : ZettelkastenSettings) (prompt : string) : Request :=
  {| url := apiEndpoint settings;
     contentType := "application/json";
     authorization := "Bearer " +:+ apiKey settings;
     model := modelFor (apiProvider settings);
     userMessage := prompt;
     max_tokens := 2000;
     temperature := 7 # 10 |}.

Definition callLLM (settings : ZettelkastenSettings) (prompt : string) : Async value :=
  if isEmpty (apiKey settings) then throw "API key not configured"
  else
    response ← postJson (requestFor settings prompt);
    match response with
    | NetworkFailure msg => consoleError "LLM API call failed:" ;; throw msg
    | NotJson msg => consoleError "LLM API call failed:" ;; throw msg
    | JsonBody JNull =>
        consoleError "LLM API call failed:" ;;
        throw "Cannot read properties of null (reading 'choices')"
    | JsonBody data => mret (extractCompletion data)
    end.

Definition nl : string := String Js.LF EmptyString.

Definition explainConnection (settings : ZettelkastenSettings)
    (content1 content2 : string) : Async value :=
  let prompt :=
    nl +:+ "Explain how these two notes connect:" +:+ nl +:+ nl
    +:+ "Note 1: " +:+ Js.sliceTo 200 content1 +:+ "..." +:+ nl
    +:+ "Note 2: " +:+ Js.sliceTo 200 content2 +:+ "..." +:+ nl +:+ nl
    +:+ "Provide a brief explanation of their relationship." +:+ nl in
  callLLM settings prompt.

Definition isPermanentNote (f : TFile) : bool := Js.startsWith (path f) "Permanent Notes/".

(** The [for] loop of [findSimilarNotes] over the remaining files. *)
Fixpoint scanSimilar (settings : ZettelkastenSettings) (content : string)
    (permanentNotes : list TFile) (similarities : list Connection)
    : Async (list Connection) :=
  match permanentNotes with
  | [] => mret similarities
  | f :: rest =>
      noteContent ← vaultRead f;
      let sim := calculateSimilarity content noteContent in
      if Js.gt sim (connectionThreshold settings)
      then
        why ← explainConnection settings content noteContent;
        scanSimilar settings content rest
          (similarities ++ [{| file := name f; similarity := sim; reason := why |}])
      else scanSimilar settings content rest similarities
  end.

Definition bySimilarityDesc (a b : Connection) : Js.number :=
  Js.sub (similarity b) (similarity a).

Definition findSimilarNotes (settings : ZettelkastenSettings) (content : string)
    : Async (list Connection) :=
  all ← getFiles;
  let permanentNotes := List.filter isPermanentNote all in
  similarities ← scanSimilar settings content permanentNotes [];
  mret (Js.sort bySimilarityDesc similarities).

(** [content.match(/\[\[.*?\]\]/g)]: the number of matches.  [linkBody]
    reads [.*?\]\]] and gives the number of characters it takes. *)
Fixpoint linkBody (s : string) : option nat :=
  match s with
  | EmptyString => None
  | String "]" (String "]" _) => Some 2
  | String c r =>
      if Js.isLineTerminator c then None
      else option_map S (linkBody r)
  end.

Definition linkAt (s : string) : option nat :=
  match s with
  | String "[" (String "[" r) => option_map (fun n => 2 + n) (linkBody r)
  | _ => None
  end.

(** [skip] characters still belong to the match found last. *)
Fixpoint countLinks_from (skip : nat) (s : string) : nat :=
  match s with
  | EmptyString => 0
  | String _ r =>
      match skip with
      | S k => countLinks_from k r
      | O =>
          match linkAt s with
          | Some len => S (countLinks_from (len - 1) r)
          | None => countLinks_from 0 r
          end
      end
  end.

Definition countLinks (content : string) : nat := countLinks_from 0 content.

(** The [for] loop of [findOrphanedNotes]. *)
Fixpoint scanOrphans (fs : list TFile) (orphans : list string) : Async (list string) :=
  match fs with
  | [] => mret orphans
  | f :: rest =>
      content ← vaultRead f;
      if Nat.ltb (countLinks content) 2
      then scanOrphans rest (orphans ++ [name f])
      else scanOrphans rest orphans
  end.

Definition findOrphanedNotes (settings : ZettelkastenSettings) : Async (list string) :=
  all ← getFiles;
  let fs := List.filter isPermanentNote all in
  orphans ← scanOrphans fs [];
  mret (take 5 orphans).

Section WritingTopics.
(** [JSON.parse] applied to what the client returned. *)
Variable JSON_parse : value -> option json.

Definition identifyWritingTopics (settings : ZettelkastenSettings) : Async json :=
  all ← getFiles;
  let allNotes := List.filter isPermanentNote all in
  noteContents ← readAll allNotes;
  let sep := nl +:+ "---" +:+ nl in
  let prompt :=
    nl +:+ "Analyze these notes and identify potential writing topics:" +:+ nl +:+ nl
    +:+ "Notes: " +:+ Js.join sep (take 50 noteContents) +:+ nl +:+ nl
    +:+ "Identify 3-5 topics where there are enough interconnected notes to write about."
    +:+ nl +:+ "For each topic, suggest:" +:+ nl
    +:+ "1. Topic name" +:+ nl
    +:+ "2. Estimated note count" +:+ nl
    +:+ "3. Readiness score (1-10)" +:+ nl
    +:+ "4. Unique writing angle" +:+ nl +:+ nl
    +:+ "Return as JSON array." +:+ nl in
  response ← callLLM settings prompt;
  match JSON_parse response with
  | Some topics => mret topics
  | None => throw "SyntaxError"
  end.
End WritingTopics.

(** ** ZettelkastenPlugin *)

(** [iso.replace(/[:.]/g, '-').slice(0, 19)] *)
Fixpoint dashed (s : string) : string :=
  match s with
  | EmptyString => EmptyString
  | String c r =>
      String (if Ascii.eqb c ":" || Ascii.eqb c "." then "-"%char else c) (dashed r)
  end.

Definition generateTimestamp : Async string :=
  iso ← nowISO; mret (Js.sliceTo 19 (dashed iso)).

(** [p.lastIndexOf('/')], [None] for [-1]. *)
Fixpoint lastIndexOfSlash_from (i : nat) (found : option nat) (s : string) : option nat :=
  match s with
  | EmptyString => found
  | String c r =>
      lastIndexOfSlash_from (S i) (if Ascii.eqb c "/" then Some i else found) r
  end.

(** [p.substring(0, p.lastIndexOf('/'))] *)
Definition folderPathOf (p : string) : string :=
  match lastIndexOfSlash_from 0 None p with
  | Some i => Js.sliceTo i p
  | None => EmptyString
  end.

Definition createNote (p content : string) : Async TFile :=
  let folderPath := folderPathOf p in
  there ← adapterExists folderPath;
  (if (there : bool) then mret tt else createFolder folderPath) ;;
  vaultCreate p content.

(** [(.*?)] followed by [stop], under the [s] flag: the shortest text
    before the first place where [stop] begins. *)
Fixpoint lazyUntil (stop : string) (s : string) : option string :=
  if Js.startsWith s stop then Some EmptyString
  else match s with
       | EmptyString => None
       | String c r => option_map (String c) (lazyUntil stop r)
       end.

(** [content.match(/^---\n(.*?)\n---/s)], the first group. *)
Definition matchFrontmatter (content : string) : option string :=
  if Js.startsWith content ("---" +:+ nl)
  then lazyUntil (nl +:+ "---") (Js.dropChars 4 content)
  else None.

(** [const [key, ...value] = line.split(':')] and the pair made of them;
    [None] stands for the [TypeError] of an absent key. *)
Definition entryOf (line : string) : option (string * string) :=
  match Js.splitChar ":" line with
  | key :: value => Some (Js.trim key, Js.trim (Js.join ":" value))
  | [] => None
  end.

Fixpoint entriesOf (lines : list string) : option (list (string * string)) :=
  match lines with
  | [] => Some []
  | line :: r =>
      match entryOf line, entriesOf r with
      | Some e, Some es => Some (e :: es)
      | _, _ => None
      end
  end.

(** [Object.fromEntries]: a later pair replaces an earlier one. *)
Definition fromEntries (es : list (string * string)) : gmap string string :=
  foldl (fun m e => <[fst e := snd e]> m) ∅ es.

Definition extractFrontmatter (content : string) : gmap string string :=
  match matchFrontmatter content with
  | None => ∅
  | Some block =>
      match entriesOf (List.filter (Js.includesChar ":") (Js.splitChar Js.LF block)) with
      | Some es => fromEntries es
      | None => ∅
      end
  end.

(** The template of a fleeting note. *)
Definition fleetingNoteContent (iso timestamp content : string) : string :=
  "---" +:+ nl
  +:+ "type: fleeting" +:+ nl
  +:+ "created: " +:+ iso +:+ nl
  +:+ "processed: false" +:+ nl
  +:+ "---" +:+ nl
  +:+ nl
  +:+ "# Fleeting Note - " +:+ timestamp +:+ nl
  +:+ nl
  +:+ content +:+ nl
  +:+ nl
  +:+ "## Processing Notes" +:+ nl
  +:+ "<!-- AI will add processing suggestions here -->" +:+ nl.

(** Capture.  [answer] is the text the input dialog resolves with. *)
Definition createFleetingNote (settings : ZettelkastenSettings) (answer : string)
    : Async unit :=
  openModal (InputModal "Enter fleeting note content:") ;;
  let content := answer in
  if isEmpty content then mret tt
  else
    timestamp ← generateTimestamp;
    let fileName := "Fleeting-" +:+ timestamp +:+ ".md" in
    let filePath := fleetingNotesFolder settings +:+ "/" +:+ fileName in
    iso ← nowISO;
    let noteContent := fleetingNoteContent iso timestamp content in
    createNote filePath noteContent ;;
    notice "Fleeting note created!".

(** Promote, up to the dialog it opens. *)
Definition processCurrentNoteToPermanent : Async unit :=
  active ← getActiveFile;
  match active with
  | None => notice "No active file"
  | Some f =>
      content ← vaultRead f;
      let frontmatter := extractFrontmatter content in
      if bool_decide (frontmatter !! "type" = Some "fleeting")
      then openModal (ProcessingModal f content)
      else notice "Current note is not a fleeting note"
  end.

(** Connect. *)
Definition findConnections (settings : ZettelkastenSettings) : Async unit :=
  active ← getActiveFile;
  match active with
  | None => notice "No active file"
  | Some f =>
      content ← vaultRead f;
      connections ← findSimilarNotes settings content;
      openModal (ConnectionsModal connections)
  end.

(** ** Vocabulary of the statements *)

(** A timestamp rendering without a line feed, as [toISOString] gives. *)
Definition singleLine (s : string) : bool := negb (Js.includesChar Js.LF s).

(** The same settings with another permanent-notes folder. *)
Definition withPermanentNotesFolder (s : ZettelkastenSettings) (folder : string)
    : ZettelkastenSettings :=
  {| apiKey := apiKey s; apiProvider := apiProvider s; apiEndpoint := apiEndpoint s;
     fleetingNotesFolder := fleetingNotesFolder s;
     permanentNotesFolder := folder;
     structureNotesFolder := structureNotesFolder s;
     autoProcess := autoProcess s;
     connectionThreshold := connectionThreshold s |}.

(** Paths of the reads recorded in a trace, in order. *)
Fixpoint readsOf (t : list Event) : list string :=
  match t with
  | [] => []
  | VaultRead p :: r => p :: readsOf r
  | _ :: r => readsOf r
  end.

(** The files an operation selects as permanent notes. *)
Definition permanentNotesOf (h : Host) : list TFile :=
  List.filter isPermanentNote (List.map fst (files h)).

(** [b] may stand right after [a] in a list sorted by falling score. *)
Definition notBelow (a b : Connection) : Prop :=
  Js.le (similarity b) (similarity a) = true.

Definition isNum (x : Js.number) : Prop :=
  match x with Js.Num _ => True | _ => False end.

(** A host with files and a remote that always answers [r]. *)
Definition hostWith (fs : list (TFile * string)) (active : option TFile)
    (r : Response) : Host :=
  {| files := fs; folders := []; activeFile := active; ticks := 0;
     clock := fun _ => "2024-05-06T07:08:09.010Z";
     remote := fun _ _ => r; trace := [] |}.

Definition keyed : ZettelkastenSettings :=
  {| apiKey := "sk-test"; apiProvider := openai;
     apiEndpoint := apiEndpoint DEFAULT_SETTINGS;
     fleetingNotesFolder := "Fleeting Notes";
     permanentNotesFolder := "Permanent Notes";
     structureNotesFolder := "Structure Notes";
     autoProcess := false;
     connectionThreshold := Js.Num (7 # 10) |}.

Definition note (p n : string) : TFile := {| path := p; name := n |}.

(** The response shapes of the scenarios. *)
Definition chatShape (text : string) : json :=
  JObj [("choices", JArr [JObj [("message", JObj [("content", JStr text)])]])].

Definition messagesShape (text : string) : json :=
  JObj [("content", JArr [JObj [("text", JStr text)]])].

(** A chat completion with an empty text beside a messages block. *)
Definition emptyChatBesideMessages : json :=
  JObj [("choices", JArr [JObj [("message", JObj [("content", JStr EmptyString)])]]);
        ("content", JArr [JObj [("text", JStr "hi")]])].

(** A vault for the Connect scenarios: three permanent notes and one
    note elsewhere. *)
Definition sampleVault : list (TFile * string) :=
  [(note "Permanent Notes/links.md" "links.md", "notes link ideas");
   (note "Inbox/todo.md" "todo.md", "atomic notes");
   (note "Permanent Notes/atomic.md" "atomic.md", "Atomic notes");
   (note "Permanent Notes/garden.md" "garden.md", "a garden of atomic notes")].

Definition halfVault : list (TFile * string) :=
  [(note "Permanent Notes/zettel.md" "zettel.md", "zettel kasten")].

Definition lowThreshold : ZettelkastenSettings :=
  {| apiKey := "sk-test"; apiProvider := anthropic;
     apiEndpoint := "https://example.test/v1/messages";
     fleetingNotesFolder := "Fleeting Notes";
     permanentNotesFolder := "Permanent Notes";
     structureNotesFolder := "Structure Notes";
     autoProcess := false;
     connectionThreshold := Js.Num (1 # 10) |}.

(** [\n---], where the front-matter block ends. *)
Definition fence : string := String Js.LF "---".

(** Documents for the Promote scenarios. *)
Definition permanentDoc : string :=
  "---" +:+ nl +:+ "type: permanent" +:+ nl +:+ "keywords: []" +:+ nl +:+ "---"
  +:+ nl +:+ nl +:+ "# Spaced repetition" +:+ nl.


(** What the loop keeps: a suggestion scores above the threshold, and its
    score is a finite number. *)
Definition kept (settings : ZettelkastenSettings) (c : Connection) : Prop :=
  Js.gt (similarity c) (connectionThreshold settings) = true
  /\ isNum (similarity c).

(** The read events of a list of files, in order. *)
Definition readEvents (fs : list TFile) : list Event :=
  List.map (fun f => VaultRead (path f)) fs.

(** ** Vocabulary of the further properties *)

(** The text the vault holds at the path of a file. *)
Definition textOf (h : Host) (f : TFile) : string :=
  default EmptyString (contentAt (path f) (files h)).

(** The score of a vault file against a text. *)
Definition scoreOf (content : string) (h : Host) (f : TFile) : Js.number :=
  calculateSimilarity content (textOf h f).

(** The permanent notes that score above the threshold, in vault order. *)
Definition candidatesOf (settings : ZettelkastenSettings) (content : string) (h : Host)
    : list TFile :=
  List.filter (fun f => Js.gt (scoreOf content h f) (connectionThreshold settings))
              (permanentNotesOf h).

(** What a suggestion shows of a note: its name and its score. *)
Definition headline (c : Connection) : string * Js.number := (file c, similarity c).

(** The vault of [h'] is the vault of [h], and nothing was written on the
    way from [h] to [h']. *)
Definition untouched (h h' : Host) : Prop :=
  files h' = files h /\ folders h' = folders h /\ vaultWrites h' = vaultWrites h.

(** The prompt of [identifyWritingTopics] for the note texts it sends. *)
Definition writingTopicsPrompt (sent : list string) : string :=
  nl +:+ "Analyze these notes and identify potential writing topics:" +:+ nl +:+ nl
  +:+ "Notes: " +:+ Js.join (nl +:+ "---" +:+ nl) sent +:+ nl +:+ nl
  +:+ "Identify 3-5 topics where there are enough interconnected notes to write about."
  +:+ nl +:+ "For each topic, suggest:" +:+ nl
  +:+ "1. Topic name" +:+ nl
  +:+ "2. Estimated note count" +:+ nl
  +:+ "3. Readiness score (1-10)" +:+ nl
  +:+ "4. Unique writing angle" +:+ nl +:+ nl
  +:+ "Return as JSON array." +:+ nl.

(** The permanent notes with fewer than two links, in vault order. *)
Definition orphansOf (h : Host) : list TFile :=
  List.filter (fun f => Nat.ltb (countLinks (textOf h f)) 2) (permanentNotesOf h).

(** Notes with links, for the scenarios of the daily review. *)
Definition linkedVault : list (TFile * string) :=
  [(note "Permanent Notes/a.md" "a.md", "See [[b]] and [[c]].");
   (note "Permanent Notes/b.md" "b.md", "Only [[a]] here.");
   (note "Inbox/x.md" "x.md", "no links");
   (note "Permanent Notes/c.md" "c.md", "An open [[ bracket" +:+ nl +:+ "]] and [[a]].")].

(** The text before the first [sep] of a line, and the text after it. *)
Fixpoint beforeChar (sep : ascii) (s : string) : string :=
  match s with
  | EmptyString => EmptyString
  | String c r => if Ascii.eqb c sep then EmptyString else String c (beforeChar sep r)
  end.

Fixpoint afterChar (sep : ascii) (s : string) : string :=
  match s with
  | EmptyString => EmptyString
  | String c r => if Ascii.eqb c sep then r else afterChar sep r
  end.

(** The entry a header line stands for: cut at the first colon, both
    sides trimmed. *)
Definition keyValue (line : string) : string * string :=
  (Js.trim (beforeChar ":" line), Js.trim (afterChar ":" line)).

(** The paths of the files of the vault. *)
Definition pathsOf (h : Host) : list string :=
  List.map (fun fc => path (fst fc)) (files h).

(** The path Capture writes to when it starts in [h]. *)
Definition fleetingPath (settings : ZettelkastenSettings) (h : Host) : string :=
  fleetingNotesFolder settings +:+ "/" +:+ "Fleeting-"
  +:+ Js.sliceTo 19 (dashed (clock h (ticks h))) +:+ ".md".

(** [needle] occurs in [s]. *)
Definition occursIn (needle s : string) : Prop :=
  exists before after, s = before +:+ needle +:+ after.

(** The host after the user has opened a file. *)
Definition withActiveFile (h : Host) (f : TFile) : Host :=
  {| files := files h; folders := folders h; activeFile := Some f;
     ticks := ticks h; clock := clock h; remote := remote h; trace := trace h |}.

(** A fleeting note as Capture writes it, for the Promote scenarios. *)
Definition fleetingDoc : string :=
  fleetingNoteContent "2024-05-06T07:08:09.010Z" "2024-05-06T07-08-09" "idea about X".

(** ** The dialogs of additional_modals.ts

    The handlers of the buttons, as functions of what the user entered.
    Closing a dialog leaves no mark in the trace. *)







(** *** AIService.createStructureNote and the button of StructureNoteModal *)

Fixpoint fileAt (p : string) (fs : list (TFile * string)) : option TFile :=
  match fs with
  | [] => None
  | (f, _) :: r => if String.eqb (path f) p then Some f else fileAt p r
  end.

(** [app.vault.getAbstractFileByPath(p)], for the path of a file. *)
Definition getAbstractFileByPath (p : string) : Async (option TFile) := fun h =>
  (Returned (fileAt p (files h)), h).

(** The first half of the function mapped over [relatedFiles]: the file is
    looked up and its read is issued. *)
Definition relatedStart (fileName : string) : Async unit :=
  found ← getAbstractFileByPath fileName;
  match found with
  | Some f => readStart f
  | None => mret tt
  end.

(** Its second half: the text arrives and is put under the path; a path
    without a file has made [read] fail. *)
Definition relatedResult (fileName : string) : Async string :=
  found ← getAbstractFileByPath fileName;
  match found with
  | Some f => content ← readResult f; mret (fileName +:+ ":" +:+ nl +:+ content)
  | None => throw "Cannot read properties of null (reading 'path')"
  end.

Definition structurePrompt (topic : string) (noteContents : list string) : string :=
  nl +:+ "Create a structure note for topic: " +:+ topic +:+ nl +:+ nl
  +:+ "Related notes:" +:+ nl
  +:+ Js.join (nl +:+ "---" +:+ nl) noteContents +:+ nl +:+ nl
  +:+ "Create a structure note that:" +:+ nl
  +:+ "1. Provides topic overview" +:+ nl
  +:+ "2. Organizes related notes logically" +:+ nl
  +:+ "3. Identifies knowledge gaps" +:+ nl
  +:+ "4. Uses Obsidian wiki-link format [[Note Name]]" +:+ nl +:+ nl
  +:+ "Return the complete structure note content." +:+ nl.

Definition createStructureNote (settings : ZettelkastenSettings) (topic : string)
    (relatedFiles : list string) : Async value :=
  forEach relatedStart relatedFiles ;;
  noteContents ← collect relatedResult relatedFiles;
  callLLM settings (structurePrompt topic noteContents).

(** [try { ... } catch (error) { ... error.message ... }] *)
Definition tryCatch {A : Type} (body : Async A) (handler : string -> Async A) : Async A :=
  fun h =>
    match body h with
    | (Returned a, h') => (Returned a, h')
    | (Thrown msg, h') => handler msg h'
    end.

Definition createStructureClicked (settings : ZettelkastenSettings) (topic : string)
    (selectedNotes : list string) : Async unit :=
  if isEmpty topic then notice "Please enter a topic"
  else match selectedNotes with
       | [] => notice "Please select at least one note"
       | _ :: _ =>
           tryCatch
             (createStructureNote settings topic selectedNotes ;;
              notice ("Created structure note for: " +:+ topic))
             (fun msg => notice ("Failed to create structure note: " +:+ msg))
       end.

(** *** WritingTopicsModal.findTopicNotes *)

(** [s.includes(needle)] *)
Fixpoint includesText (s needle : string) : bool :=
  Js.startsWith s needle
  || match s with
     | EmptyString => false
     | String _ r => includesText r needle
     end.

(** [p.lastIndexOf('.')], [None] for [-1]. *)
Fixpoint lastIndexOfDot_from (i : nat) (found : option nat) (s : string) : option nat :=
  match s with
  | EmptyString => found
  | String c r =>
      lastIndexOfDot_from (S i) (if Ascii.eqb c "." then Some i else found) r
  end.

(** The [basename] the vault gives a file: its name without the extension. *)
Definition basenameOf (f : TFile) : string :=
  match lastIndexOfDot_from 0 None (name f) with
  | Some i => Js.sliceTo i (name f)
  | None => name f
  end.

Definition hasKeywords (keywords : list string) (content : string) (f : TFile) : bool :=
  existsb (fun keyword =>
             includesText (Js.toLowerCase content) keyword
             || includesText (Js.toLowerCase (basenameOf f)) keyword)
          keywords.

(** The [for] loop of [findTopicNotes]. *)
Fixpoint scanTopic (keywords : list string) (fs : list TFile) (relatedFiles : list string)
    : Async (list string) :=
  match fs with
  | [] => mret relatedFiles
  | f :: rest =>
      content ← vaultRead f;
      if hasKeywords keywords content f
      then scanTopic keywords rest (relatedFiles ++ [path f])
      else scanTopic keywords rest relatedFiles
  end.

Definition findTopicNotes (settings : ZettelkastenSettings) (topic : string)
    : Async (list string) :=
  all ← getFiles;
  let allFiles :=
    List.filter (fun f => Js.startsWith (path f) (permanentNotesFolder settings)) all in
  let keywords := Js.splitChar " " (Js.toLowerCase topic) in
  scanTopic keywords allFiles [].

(** *** OutlineModal: the button Save Outline *)

Definition isAlphaNumeric (c : ascii) : bool :=
  let n := N_of_ascii c in
  (((48 <=? n) && (n <=? 57)) || ((65 <=? n) && (n <=? 90))
   || ((97 <=? n) && (n <=? 122)))%N.

(** [s.replace(/[^a-zA-Z0-9]/g, '-')] *)
Fixpoint sanitize (s : string) : string :=
  match s with
  | EmptyString => EmptyString
  | String c r => String (if isAlphaNumeric c then c else "-"%char) (sanitize r)
  end.

Definition outlinePath (topic day : string) : string :=
  "Writing Projects/" +:+ "Outline-" +:+ sanitize topic +:+ "-" +:+ day +:+ ".md".

Definition outlineContent (topic iso text : string) : string :=
  "---" +:+ nl
  +:+ "type: outline" +:+ nl
  +:+ "topic: " +:+ topic +:+ nl
  +:+ "created: " +:+ iso +:+ nl
  +:+ "---" +:+ nl
  +:+ nl
  +:+ "# Outline: " +:+ topic +:+ nl
  +:+ nl
  +:+ text +:+ nl.

Definition saveOutlineClicked (topic text : string) : Async unit :=
  day ← (iso ← nowISO; mret (Js.sliceTo 10 iso));
  let filePath := outlinePath topic day in
  iso ← nowISO;
  createNote filePath (outlineContent topic iso text) ;;
  notice "Outline saved!".

(** A vault for the scenarios of the dialogs. *)
Definition structureVault : list (TFile * string) :=
  [(note "Permanent Notes/a.md" "a.md", "Atomic notes");
   (note "Permanent Notes/b.md" "b.md", "Link notes early");
   (note "Drafts/c.md" "c.md", "A draft")].

(** The files [findTopicNotes] looks at, and the keywords of a topic. *)
Definition topicFilesOf (settings : ZettelkastenSettings) (h : Host) : list TFile :=
  List.filter (fun f => Js.startsWith (path f) (permanentNotesFolder settings))
              (List.map fst (files h)).

Definition keywordsOf (topic : string) : list string :=
  Js.splitChar " " (Js.toLowerCase topic).

(** * Properties *)

(** ** Words and sets *)

Lemma splitWs_from_nonempty cur inRun s : Js.splitWs_from cur inRun s <> [].
Proof.
  revert cur inRun.
  induction s as [|c r IH]; intros cur inRun; simpl; [discriminate|].
  destruct (Js.isWhiteSpace c); [destruct inRun|]; auto; discriminate.
Qed.

Lemma words_nonempty content : words content <> [].
Proof. apply splitWs_from_nonempty. Qed.

Lemma includes_true l w : Js.includes l w = true <-> w ∈ l.
Proof. unfold Js.includes. apply bool_decide_eq_true. Qed.

Lemma includes_false l w : Js.includes l w = false <-> w ∉ l.
Proof. unfold Js.includes. apply bool_decide_eq_false. Qed.

Lemma setOf_from_seen seen l :
  (forall x, x ∈ l -> x ∈ seen) -> Js.setOf_from seen l = [].
Proof.
  induction l as [|x r IH]; intros Hall; simpl; [reflexivity|].
  assert (Hx : Js.includes seen x = true)
    by (apply includes_true, Hall; left).
  rewrite Hx. apply IH. intros y Hy. apply Hall. by right.
Qed.

Lemma setOf_from_fresh w : forall seen rest,
  NoDup w ->
  (forall x, x ∈ w -> x ∉ seen) ->
  (forall x, x ∈ rest -> x ∈ w \/ x ∈ seen) ->
  Js.setOf_from seen (w ++ rest) = w.
Proof.
  induction w as [|x w IH]; intros seen rest Hnd Hfresh Hrest; simpl.
  - apply setOf_from_seen. intros y Hy.
    destruct (Hrest y Hy) as [H|H]; [inversion H | exact H].
  - assert (Hx : Js.includes seen x = false)
      by (apply includes_false, Hfresh; left).
    rewrite Hx. f_equal.
    apply NoDup_cons in Hnd as [Hxw Hnd].
    apply IH; [exact Hnd | |].
    + intros y Hy Hin. apply elem_of_cons in Hin as [->|Hin]; [tauto|].
      apply (Hfresh y); [by right | exact Hin].
    + intros y Hy. destruct (Hrest y Hy) as [H|H].
      * apply elem_of_cons in H as [->|H]; [right; left | by left].
      * right. by right.
Qed.

Lemma unionOf_self w : NoDup w -> unionOf w w = w.
Proof.
  intros Hnd. unfold unionOf, Js.setOf.
  apply setOf_from_fresh; [exact Hnd | | tauto].
  intros x _ Hx. inversion Hx.
Qed.

Lemma intersectionOf_self w : intersectionOf w w = w.
Proof.
  unfold intersectionOf.
  assert (H : forall l, (forall x, x ∈ l -> x ∈ w) ->
                        List.filter (Js.includes w) l = l).
  { induction l as [|x l IH]; intros Hall; simpl; [reflexivity|].
    assert (Hx : Js.includes w x = true) by (apply includes_true, Hall; left).
    rewrite Hx. f_equal. apply IH. intros y Hy. apply Hall. by right. }
  apply H. tauto.
Qed.

Lemma divLengths_same n : n <> 0 -> Js.divLengths n n = Js.Num 1.
Proof.
  intros Hn. destruct n as [|k]; [congruence|].
  unfold Js.divLengths. f_equal.
  change 1%Q with (Qred 1). apply Qred_complete.
  unfold Qeq; simpl. lia.
Qed.

Lemma unionOf_nonempty w1 w2 : w1 <> [] -> unionOf w1 w2 <> [].
Proof.
  intros Hw. destruct w1 as [|x r]; [congruence|].
  unfold unionOf, Js.setOf. simpl.
  replace (Js.includes [] x) with false; [discriminate|].
  symmetry. apply includes_false. intros H. inversion H.
Qed.

(** The quotient is always a finite number that is not negative: the
    union holds the first word of the first text at least. *)
Lemma calculateSimilarity_finite content1 content2 :
  exists q, calculateSimilarity content1 content2 = Js.Num q /\ (0 <= q)%Q.
Proof.
  unfold calculateSimilarity.
  pose proof (unionOf_nonempty (words content1) (words content2)
                (words_nonempty content1)) as Hu.
  destruct (unionOf (words content1) (words content2)) as [|u us]; [congruence|].
  simpl length. unfold Js.divLengths. eexists; split; [reflexivity|].
  rewrite Qred_correct. unfold Qle; simpl. lia.
Qed.

(** ** C1 *)

(** C1, as stated, fails on the empty text: the split of the empty text is
    the one-element array holding the empty word, so both the intersection
    and the union have one element and the score is 1, not 0.  It also
    fails on a text that repeats a word: "note note" scores 2 with itself. *)
Lemma C1_empty_text_scores_one :
  calculateSimilarity EmptyString EmptyString = Js.Num 1
  /\ calculateSimilarity EmptyString EmptyString <> Js.Num 0
  /\ calculateSimilarity "note note" "note note" = Js.Num 2
  /\ calculateSimilarity "note note" "note note" <> Js.Num 1.
Proof. repeat split; vm_compute; try reflexivity; discriminate. Qed.

(** C1, amended: a text whose lower-cased word sequence repeats no word has
    similarity 1 with itself; the empty text is such a text, its score is 1
    and no division by zero takes place. *)
Theorem C1_self_similarity (a : string) :
  NoDup (words a) ->
  calculateSimilarity a a = Js.Num 1
  /\ calculateSimilarity EmptyString EmptyString = Js.Num 1.
Proof.
  intros Hnd. split; [|vm_compute; reflexivity].
  unfold calculateSimilarity.
  rewrite intersectionOf_self, (unionOf_self _ Hnd).
  apply divLengths_same.
  pose proof (words_nonempty a). destruct (words a); simpl; congruence.
Qed.

Lemma C1_self_similarity_witness :
  NoDup (words "Atomic notes link ideas")
  /\ calculateSimilarity "Atomic notes link ideas" "Atomic notes link ideas" = Js.Num 1.
Proof.
  assert (Hnd : NoDup (words "Atomic notes link ideas")).
  { refine (bool_decide_unpack _ _). vm_compute. exact I. }
  split; [exact Hnd|].
  exact (proj1 (C1_self_similarity "Atomic notes link ideas" Hnd)).
Defined.

(** ** C2 *)

(** C2: the score is meant to lie in [0, 1]; on a text that repeats a word
    of the other text it does not.  Every occurrence of "note" in the first
    text is counted in the intersection, the union holds it once. *)
Theorem C2_score_above_one :
  calculateSimilarity "note note" "note" = Js.Num 2
  /\ Js.le (calculateSimilarity "note note" "note") (Js.Num 1) = false.
Proof. split; vm_compute; reflexivity. Qed.

(** ** C3 *)

(** C3: the score is meant to be symmetric; exchanging the two texts of
    the input of C2 changes it from 2 to 1. *)
Theorem C3_not_symmetric :
  calculateSimilarity "note note" "note" = Js.Num 2
  /\ calculateSimilarity "note" "note note" = Js.Num 1.
Proof. split; vm_compute; reflexivity. Qed.

(** ** The generation client: C8 and C5 *)

Lemma callLLM_keyed settings prompt h :
  isEmpty (apiKey settings) = false ->
  let request := requestFor settings prompt in
  callLLM settings prompt h =
    match remote h (length (httpPosts h)) request with
    | JsonBody JNull =>
        (Thrown "Cannot read properties of null (reading 'choices')",
         withTrace h (trace h ++ [HttpPost request; ConsoleError "LLM API call failed:"]))
    | JsonBody data =>
        (Returned (extractCompletion data),
         withTrace h (trace h ++ [HttpPost request]))
    | NetworkFailure msg | NotJson msg =>
        (Thrown msg,
         withTrace h (trace h ++ [HttpPost request; ConsoleError "LLM API call failed:"]))
    end.
Proof.
  intros Hkey request. unfold callLLM. rewrite Hkey.
  unfold mbind, Async_bind, postJson. fold request. simpl.
  destruct (remote h (length (httpPosts h)) request) as [msg|msg|data];
    [| |destruct data]; simpl; unfold withTrace; simpl;
    rewrite <- ?app_assoc; reflexivity.
Qed.

(** C8: with an empty API key the client fails with the configuration
    error "API key not configured" and leaves the host as it was: no
    request has been posted, nothing else has happened. *)
Theorem C8_no_key_no_request (settings : ZettelkastenSettings) (prompt : string) (h : Host) :
  apiKey settings = EmptyString ->
  callLLM settings prompt h = (Thrown "API key not configured", h)
  /\ httpPosts (snd (callLLM settings prompt h)) = httpPosts h
  /\ trace (snd (callLLM settings prompt h)) = trace h.
Proof.
  intros Hkey. unfold callLLM. rewrite Hkey. simpl. repeat split.
Qed.

Lemma C8_no_key_no_request_witness :
  callLLM DEFAULT_SETTINGS "Explain" (hostWith [] None (JsonBody (chatShape "hi")))
  = (Thrown "API key not configured", hostWith [] None (JsonBody (chatShape "hi"))).
Proof.
  exact (proj1 (C8_no_key_no_request DEFAULT_SETTINGS "Explain"
                  (hostWith [] None (JsonBody (chatShape "hi"))) eq_refl)).
Defined.

(** C5, as stated, fails when the first field path is present but holds
    an empty text: the client goes on to the second path. *)
Lemma C5_present_but_empty :
  chatCompletionPath emptyChatBesideMessages = Some (JStr EmptyString)
  /\ fst (callLLM keyed "Explain" (hostWith [] None (JsonBody emptyChatBesideMessages)))
     = Returned (Some (JStr "hi")).
Proof. split; vm_compute; reflexivity. Qed.

(** C5, amended: for a response that is a JSON object the client returns
    [choices[0].message.content] when that value is present and truthy
    (a text that is not empty, for one), otherwise [content[0].text] when
    that is present and truthy, otherwise the empty text, and never an
    error; the three scenario responses give "hi", "hi" and the empty
    text. *)
Theorem C5_completion_extraction (settings : ZettelkastenSettings) (prompt : string)
    (h : Host) (fields : list (string * json)) :
  isEmpty (apiKey settings) = false ->
  (forall r, remote h (length (httpPosts h)) r = JsonBody (JObj fields)) ->
  fst (callLLM settings prompt h)
  = Returned (if truthy (chatCompletionPath (JObj fields))
              then chatCompletionPath (JObj fields)
              else if truthy (messagesPath (JObj fields))
                   then messagesPath (JObj fields)
                   else Some (JStr EmptyString))
  /\ fst (callLLM keyed prompt (hostWith [] None (JsonBody (chatShape "hi"))))
     = Returned (Some (JStr "hi"))
  /\ fst (callLLM keyed prompt (hostWith [] None (JsonBody (messagesShape "hi"))))
     = Returned (Some (JStr "hi"))
  /\ fst (callLLM keyed prompt (hostWith [] None (JsonBody (JObj []))))
     = Returned (Some (JStr EmptyString)).
Proof.
  intros Hkey Hremote. split; [|repeat split].
  rewrite (callLLM_keyed settings prompt h Hkey).
  rewrite Hremote. simpl. f_equal.
  unfold extractCompletion, orElse.
  destruct (truthy (chatCompletionPath (JObj fields))) eqn:H1; rewrite ?H1; [reflexivity|].
  destruct (truthy (messagesPath (JObj fields))) eqn:H2; rewrite ?H2; reflexivity.
Qed.

Lemma C5_completion_extraction_witness :
  fst (callLLM keyed "Explain" (hostWith [] None (JsonBody (chatShape "link"))))
  = Returned (Some (JStr "link")).
Proof.
  exact (proj1 (C5_completion_extraction keyed "Explain"
                  (hostWith [] None (JsonBody (chatShape "link")))
                  [("choices", JArr [JObj [("message", JObj [("content", JStr "link")])]])]
                  eq_refl (fun _ => eq_refl))).
Defined.

(** ** Effects of the host calls *)

Lemma withTrace_same h : withTrace h (trace h) = h.
Proof. destruct h; reflexivity. Qed.

Lemma readsOf_app t1 t2 : readsOf (t1 ++ t2) = readsOf t1 ++ readsOf t2.
Proof.
  induction t1 as [|e t1 IH]; simpl; [reflexivity|].
  destruct e; simpl; rewrite IH; reflexivity.
Qed.

Lemma vaultRead_run f h :
  vaultRead f h =
  match contentAt (path f) (files h) with
  | Some c => (Returned c, withTrace h (trace h ++ [VaultRead (path f)]))
  | None => (Thrown "File not found", withTrace h (trace h ++ [VaultRead (path f)]))
  end.
Proof.
  unfold vaultRead, mbind, Async_bind, readStart, readResult, emit, withTrace. simpl.
  destruct (contentAt (path f) (files h)); reflexivity.
Qed.

(** The client only adds to the trace, and never a read. *)
Lemma callLLM_effect settings prompt h :
  exists t, snd (callLLM settings prompt h) = withTrace h (trace h ++ t)
            /\ readsOf t = [].
Proof.
  destruct (isEmpty (apiKey settings)) eqn:Hkey.
  - exists []. unfold callLLM. rewrite Hkey. simpl.
    rewrite app_nil_r, withTrace_same. split; reflexivity.
  - rewrite (callLLM_keyed settings prompt h Hkey). cbv zeta.
    destruct (remote h _ _) as [msg|msg|data]; [| |destruct data];
      eexists; (split; [reflexivity|reflexivity]).
Qed.

Lemma scanSimilar_cons settings content f rest acc h :
  scanSimilar settings content (f :: rest) acc h =
  let h1 := withTrace h (trace h ++ [VaultRead (path f)]) in
  match contentAt (path f) (files h) with
  | None => (Thrown "File not found", h1)
  | Some noteContent =>
      let sim := calculateSimilarity content noteContent in
      if Js.gt sim (connectionThreshold settings)
      then match explainConnection settings content noteContent h1 with
           | (Returned why, h2) =>
               scanSimilar settings content rest
                 (acc ++ [{| file := name f; similarity := sim; reason := why |}]) h2
           | (Thrown msg, h2) => (Thrown msg, h2)
           end
      else scanSimilar settings content rest acc h1
  end.
Proof.
  cbn [scanSimilar]. unfold mbind at 1. unfold Async_bind at 1.
  rewrite vaultRead_run.
  destruct (contentAt (path f) (files h)) as [noteContent|]; [|reflexivity].
  cbv zeta.
  destruct (Js.gt (calculateSimilarity content noteContent) (connectionThreshold settings));
    reflexivity.
Qed.

Lemma findSimilarNotes_run settings content h :
  findSimilarNotes settings content h =
  match scanSimilar settings content (permanentNotesOf h) [] h with
  | (Returned similarities, h') => (Returned (Js.sort bySimilarityDesc similarities), h')
  | (Thrown msg, h') => (Thrown msg, h')
  end.
Proof.
  unfold findSimilarNotes, mbind, Async_bind, getFiles, permanentNotesOf. simpl.
  destruct (scanSimilar _ _ _ _ h) as [[cs|msg] h']; reflexivity.
Qed.

Lemma scanSimilar_kept settings content fs : forall acc h cs h',
  Forall (kept settings) acc ->
  scanSimilar settings content fs acc h = (Returned cs, h') ->
  Forall (kept settings) cs.
Proof.
  induction fs as [|f rest IH]; intros acc h cs h' Hacc Hrun.
  - simpl in Hrun. inversion Hrun; subst; exact Hacc.
  - rewrite scanSimilar_cons in Hrun. cbv zeta in Hrun.
    destruct (contentAt (path f) (files h)) as [noteContent|]; [|discriminate].
    destruct (Js.gt _ _) eqn:Hgt.
    + destruct (explainConnection _ _ _ _) as [[why|msg] h2]; [|discriminate].
      eapply IH; [|exact Hrun].
      apply Forall_app; split; [exact Hacc|].
      constructor; [|constructor]. split; simpl; [exact Hgt|].
      destruct (calculateSimilarity_finite content noteContent) as (q & -> & _).
      exact I.
    + eapply IH; [exact Hacc | exact Hrun].
Qed.

(** The reads of the loop are those of a prefix of its files, all of them
    when it returns. *)
Lemma scanSimilar_reads settings content fs : forall acc h,
  exists t done,
    snd (scanSimilar settings content fs acc h) = withTrace h (trace h ++ t)
    /\ readsOf t = List.map path done
    /\ done `prefix_of` fs
    /\ (forall cs, fst (scanSimilar settings content fs acc h) = Returned cs -> done = fs).
Proof.
  induction fs as [|f rest IH]; intros acc h.
  - exists [], []. simpl. rewrite app_nil_r, withTrace_same.
    repeat split; auto.
  - rewrite scanSimilar_cons. cbv zeta.
    set (h1 := withTrace h (trace h ++ [VaultRead (path f)])).
    destruct (contentAt (path f) (files h)) as [noteContent|].
    2: { exists [VaultRead (path f)], [f]. simpl. repeat split.
         - apply prefix_cons, prefix_nil.
         - discriminate. }
    destruct (Js.gt _ _).
    + unfold explainConnection.
      destruct (callLLM_effect settings
                  (nl +:+ "Explain how these two notes connect:" +:+ nl +:+ nl
                   +:+ "Note 1: " +:+ Js.sliceTo 200 content +:+ "..." +:+ nl
                   +:+ "Note 2: " +:+ Js.sliceTo 200 noteContent +:+ "..." +:+ nl +:+ nl
                   +:+ "Provide a brief explanation of their relationship." +:+ nl)
                  h1) as (t1 & Ht1 & Hr1).
      destruct (callLLM _ _ h1) as [[why|msg] h2]; cbn [snd] in Ht1; subst h2.
      * destruct (IH (acc ++ [{| file := name f;
                                 similarity := calculateSimilarity content noteContent;
                                 reason := why |}])
                     (withTrace h1 (trace h1 ++ t1))) as (t & done & Ht & Hr & Hp & Hall).
        exists ([VaultRead (path f)] ++ t1 ++ t), (f :: done).
        rewrite Ht. simpl. rewrite !readsOf_app, Hr1, Hr. simpl.
        repeat split.
        -- unfold withTrace; simpl. rewrite <- !app_assoc. reflexivity.
        -- by apply prefix_cons.
        -- intros cs Hcs. f_equal. eapply Hall, Hcs.
      * exists ([VaultRead (path f)] ++ t1), [f].
        simpl. rewrite Hr1. repeat split.
        -- unfold withTrace; simpl. rewrite <- !app_assoc. reflexivity.
        -- apply prefix_cons, prefix_nil.
        -- discriminate.
    + destruct (IH acc h1) as (t & done & Ht & Hr & Hp & Hall).
      exists ([VaultRead (path f)] ++ t), (f :: done).
      rewrite Ht. simpl. rewrite Hr. repeat split.
      * unfold withTrace; simpl. rewrite <- !app_assoc. reflexivity.
      * by apply prefix_cons.
      * intros cs Hcs. f_equal. eapply Hall, Hcs.
Qed.

(** ** Sorting by falling score *)

Section SortFacts.
Context {A : Type} (cmp : A -> A -> Js.number).

Lemma insertSorted_Forall (P : A -> Prop) x l :
  P x -> Forall P l -> Forall P (Js.insertSorted cmp x l).
Proof.
  intros Hx. induction 1 as [|y r Hy Hr IH]; simpl.
  - repeat constructor. exact Hx.
  - destruct (Js.comesAfter cmp x y); repeat constructor; auto.
Qed.

Lemma sort_Forall (P : A -> Prop) l : Forall P l -> Forall P (Js.sort cmp l).
Proof.
  induction 1 as [|x r Hx Hr IH]; simpl; [constructor|].
  apply insertSorted_Forall; assumption.
Qed.

Lemma insertSorted_Sorted (R : A -> A -> Prop) (P : A -> Prop) :
  (forall x y, P x -> P y -> Js.comesAfter cmp x y = true -> R y x) ->
  (forall x y, P x -> P y -> Js.comesAfter cmp x y = false -> R x y) ->
  forall x l, P x -> Forall P l -> Sorted R l -> Sorted R (Js.insertSorted cmp x l).
Proof.
  intros Hafter Hbefore x l Hx HP HS.
  induction HS as [|y r HSr IH Hhd]; simpl.
  - repeat constructor.
  - apply Forall_cons in HP as [Hy HPr].
    destruct (Js.comesAfter cmp x y) eqn:Hc.
    + constructor; [apply IH; exact HPr|].
      destruct Hhd as [|z r' Hyz]; simpl.
      * constructor. apply Hafter; assumption.
      * destruct (Js.comesAfter cmp x z); constructor; [exact Hyz|].
        apply Hafter; assumption.
    + constructor; [constructor; assumption|].
      constructor. apply Hbefore; assumption.
Qed.

Lemma insertSorted_Permutation x l : Js.insertSorted cmp x l ≡ₚ x :: l.
Proof.
  induction l as [|y r IH]; simpl; [reflexivity|].
  destruct (Js.comesAfter cmp x y); [|reflexivity].
  rewrite IH. apply Permutation_swap.
Qed.

(** The sorted array holds the elements of the array, each as often. *)
Lemma sort_Permutation l : Js.sort cmp l ≡ₚ l.
Proof.
  induction l as [|x r IH]; simpl; [reflexivity|].
  rewrite insertSorted_Permutation, IH. reflexivity.
Qed.

Lemma sort_Sorted (R : A -> A -> Prop) (P : A -> Prop) :
  (forall x y, P x -> P y -> Js.comesAfter cmp x y = true -> R y x) ->
  (forall x y, P x -> P y -> Js.comesAfter cmp x y = false -> R x y) ->
  forall l, Forall P l -> Sorted R (Js.sort cmp l).
Proof.
  intros Hafter Hbefore. induction 1 as [|x r Hx Hr IH]; simpl; [constructor|].
  apply (insertSorted_Sorted R P); auto using sort_Forall.
Qed.
End SortFacts.

Lemma Sorted_adjacent {A : Type} (R : A -> A -> Prop) (l : list A) :
  Sorted R l ->
  forall i a b, l !! i = Some a -> l !! S i = Some b -> R a b.
Proof.
  induction 1 as [|x r HS IH Hhd]; intros i a b Ha Hb; [discriminate|].
  destruct i as [|i]; simpl in *.
  - inversion Ha; subst. destruct Hhd as [|z r' Hz]; [discriminate|].
    simpl in Hb. inversion Hb; subst. exact Hz.
  - eapply IH; eassumption.
Qed.

Lemma gt_le_false x y : Js.gt x y = true -> Js.le x y = false.
Proof.
  destruct x as [a| | |], y as [b| | |]; simpl; try discriminate; try reflexivity.
  unfold Js.Qlt_bool. destruct (Qle_bool a b); [discriminate|reflexivity].
Qed.

Lemma comesAfter_score_true x y :
  isNum (similarity x) -> isNum (similarity y) ->
  Js.comesAfter bySimilarityDesc x y = true -> notBelow y x.
Proof.
  unfold Js.comesAfter, bySimilarityDesc, notBelow.
  destruct (similarity x) as [a| | |], (similarity y) as [b| | |]; simpl; try tauto.
  intros _ _ H. unfold Js.Qlt_bool in H. apply negb_true_iff in H.
  apply Qle_bool_iff.
  destruct (Qlt_le_dec b a) as [Hlt|Hle]; [|exact Hle].
  exfalso. assert (Hc : Qle_bool (Qred (b - a)) 0 = true).
  { apply Qle_bool_iff. rewrite Qred_correct. lra. }
  congruence.
Qed.

Lemma comesAfter_score_false x y :
  isNum (similarity x) -> isNum (similarity y) ->
  Js.comesAfter bySimilarityDesc x y = false -> notBelow x y.
Proof.
  unfold Js.comesAfter, bySimilarityDesc, notBelow.
  destruct (similarity x) as [a| | |], (similarity y) as [b| | |]; simpl; try tauto.
  intros _ _ H. unfold Js.Qlt_bool in H. apply negb_false_iff in H.
  apply Qle_bool_iff. apply Qle_bool_iff in H. rewrite Qred_correct in H. lra.
Qed.

Lemma findSimilarNotes_kept settings content h cs h' :
  findSimilarNotes settings content h = (Returned cs, h') ->
  Forall (kept settings) cs.
Proof.
  rewrite findSimilarNotes_run.
  destruct (scanSimilar settings content (permanentNotesOf h) [] h)
    as [[similarities|msg] h1] eqn:Hscan; [|discriminate].
  intros H; inversion H; subst.
  apply sort_Forall.
  eapply scanSimilar_kept; [constructor | exact Hscan].
Qed.

(** ** The Connect workflow: C4 and C9 *)

(** C4: no suggestion returned by [findSimilarNotes] has a score at or
    below the configured threshold; with threshold 0.7 and one permanent
    document that scores 0.5 the list returned is empty. *)
Theorem C4_above_threshold (settings : ZettelkastenSettings) (content : string) (h : Host) :
  (forall cs h', findSimilarNotes settings content h = (Returned cs, h') ->
     forall c, c ∈ cs -> Js.le (similarity c) (connectionThreshold settings) = false)
  /\ (forall f noteContent,
        permanentNotesOf h = [f] ->
        contentAt (path f) (files h) = Some noteContent ->
        calculateSimilarity content noteContent = Js.Num (1 # 2) ->
        connectionThreshold settings = Js.Num (7 # 10) ->
        fst (findSimilarNotes settings content h) = Returned []).
Proof.
  split.
  - intros cs h' Hrun c Hc.
    pose proof (findSimilarNotes_kept _ _ _ _ _ Hrun) as Hall.
    rewrite Forall_forall in Hall.
    destruct (Hall c Hc) as [Hgt _]. apply gt_le_false, Hgt.
  - intros f noteContent Hfs Hread Hsim Ht.
    rewrite findSimilarNotes_run, Hfs, scanSimilar_cons, Hread. cbv zeta.
    rewrite Hsim, Ht. reflexivity.
Qed.

Lemma C4_above_threshold_witness :
  (forall c, c ∈ [{| file := "atomic.md"; similarity := Js.Num 1;
                     reason := Some (JStr "both are about atomic notes") |}] ->
             Js.le (similarity c) (Js.Num (7 # 10)) = false)
  /\ fst (findSimilarNotes keyed "zettel" (hostWith halfVault None (JsonBody (JObj []))))
     = Returned [].
Proof.
  split.
  - exact (proj1 (C4_above_threshold keyed "atomic notes"
                    (hostWith sampleVault None
                       (JsonBody (chatShape "both are about atomic notes"))))
                 _ _ eq_refl).
  - exact (proj2 (C4_above_threshold keyed "zettel"
                    (hostWith halfVault None (JsonBody (JObj []))))
                 _ _ eq_refl eq_refl eq_refl eq_refl).
Defined.

(** C9: the list returned by [findSimilarNotes] is sorted by falling
    score: of two neighbours the earlier one scores at least as much as
    the later one. *)
Theorem C9_sorted_descending (settings : ZettelkastenSettings) (content : string)
    (h : Host) (cs : list Connection) (h' : Host) :
  findSimilarNotes settings content h = (Returned cs, h') ->
  forall i a b, cs !! i = Some a -> cs !! S i = Some b ->
                Js.le (similarity b) (similarity a) = true.
Proof.
  intros Hrun.
  apply (Sorted_adjacent notBelow).
  revert Hrun. rewrite findSimilarNotes_run.
  destruct (scanSimilar settings content (permanentNotesOf h) [] h)
    as [[similarities|msg] h1] eqn:Hscan; [|discriminate].
  intros H; inversion H; subst.
  apply (sort_Sorted bySimilarityDesc notBelow (fun c => isNum (similarity c))).
  - apply comesAfter_score_true.
  - apply comesAfter_score_false.
  - assert (Hall : Forall (kept settings) similarities)
      by (eapply scanSimilar_kept; [constructor | exact Hscan]).
    eapply Forall_impl; [exact Hall|]. intros c [_ Hc]. exact Hc.
Qed.

Lemma C9_sorted_descending_witness :
  exists cs,
    fst (findSimilarNotes lowThreshold "atomic notes"
           (hostWith sampleVault None (JsonBody (messagesShape "related")))) = Returned cs
    /\ List.map file cs = ["atomic.md"; "garden.md"; "links.md"]
    /\ forall i a b, cs !! i = Some a -> cs !! S i = Some b ->
                     Js.le (similarity b) (similarity a) = true.
Proof.
  eexists. split; [vm_compute; reflexivity|]. split; [reflexivity|].
  refine (C9_sorted_descending lowThreshold "atomic notes"
            (hostWith sampleVault None (JsonBody (messagesShape "related"))) _ _ _).
  vm_compute. reflexivity.
Defined.

(** ** The scans of the permanent notes: C10 *)

Lemma readsOf_readEvents fs : readsOf (readEvents fs) = List.map path fs.
Proof. induction fs as [|f r IH]; simpl; [reflexivity|]. by rewrite IH. Qed.

Lemma contentAt_listed f fs :
  f ∈ List.map fst fs -> is_Some (contentAt (path f) fs).
Proof.
  induction fs as [|[g c] r IH]; simpl; intros Hin; [inversion Hin|].
  destruct (String.eqb (path g) (path f)) eqn:Heq; [eexists; reflexivity|].
  apply elem_of_cons in Hin as [->|Hin]; [|exact (IH Hin)].
  rewrite String.eqb_refl in Heq. discriminate.
Qed.

Lemma permanentNotesOf_spec h f :
  f ∈ permanentNotesOf h
  <-> f ∈ List.map fst (files h) /\ Js.startsWith (path f) "Permanent Notes/" = true.
Proof.
  unfold permanentNotesOf. rewrite !list_elem_of_In, filter_In.
  unfold isPermanentNote. tauto.
Qed.

Lemma permanentNotesOf_listed h f :
  f ∈ permanentNotesOf h -> is_Some (contentAt (path f) (files h)).
Proof. intros Hf. apply contentAt_listed, permanentNotesOf_spec, Hf. Qed.

Lemma scanOrphans_run fs : forall orphans h,
  (forall f, f ∈ fs -> is_Some (contentAt (path f) (files h))) ->
  exists found,
    scanOrphans fs orphans h
    = (Returned found, withTrace h (trace h ++ readEvents fs)).
Proof.
  induction fs as [|f rest IH]; intros orphans h Hread.
  - exists orphans. simpl. rewrite app_nil_r, withTrace_same. reflexivity.
  - cbn [scanOrphans]. unfold mbind at 1. unfold Async_bind at 1.
    rewrite vaultRead_run.
    destruct (Hread f) as [c Hc]; [left|]. rewrite Hc.
    set (h1 := withTrace h (trace h ++ [VaultRead (path f)])).
    assert (Hrest : forall g, g ∈ rest -> is_Some (contentAt (path g) (files h1))).
    { intros g Hg. apply Hread. by right. }
    destruct (Nat.ltb (countLinks c) 2);
      [destruct (IH (orphans ++ [name f]) h1 Hrest) as [found Hfound]
      |destruct (IH orphans h1 Hrest) as [found Hfound]];
      exists found; rewrite Hfound; unfold h1, withTrace; simpl;
      rewrite <- app_assoc; reflexivity.
Qed.

Lemma findOrphanedNotes_reads settings h :
  readsOf (trace (snd (findOrphanedNotes settings h)))
  = readsOf (trace h) ++ List.map path (permanentNotesOf h).
Proof.
  unfold findOrphanedNotes, mbind, Async_bind, getFiles. simpl.
  fold (permanentNotesOf h).
  destruct (scanOrphans_run (permanentNotesOf h) [] h (permanentNotesOf_listed h))
    as [found ->].
  simpl. rewrite readsOf_app, readsOf_readEvents. reflexivity.
Qed.

Lemma forEach_readStart fs h :
  forEach readStart fs h = (Returned tt, withTrace h (trace h ++ readEvents fs)).
Proof.
  revert h. induction fs as [|f rest IH]; intros h; simpl.
  - rewrite app_nil_r, withTrace_same. reflexivity.
  - unfold mbind, Async_bind, readStart at 1, emit. rewrite IH.
    unfold withTrace; simpl. rewrite <- app_assoc. reflexivity.
Qed.

Lemma collect_readResult fs h :
  snd (collect readResult fs h) = h.
Proof.
  induction fs as [|f rest IH]; simpl; [reflexivity|].
  unfold mbind, Async_bind, readResult at 1.
  destruct (contentAt (path f) (files h)); [|reflexivity].
  destruct (collect readResult rest h) as [[ys|msg] h2]; simpl in *; exact IH.
Qed.

Lemma identifyWritingTopics_reads JSON_parse settings h :
  readsOf (trace (snd (identifyWritingTopics JSON_parse settings h)))
  = readsOf (trace h) ++ List.map path (permanentNotesOf h).
Proof.
  unfold identifyWritingTopics, mbind at 1, Async_bind at 1, getFiles.
  cbv beta iota zeta. fold (permanentNotesOf h).
  unfold mbind at 1, Async_bind at 1, readAll.
  unfold mbind at 1, Async_bind at 1. rewrite forEach_readStart.
  set (h1 := withTrace h (trace h ++ readEvents (permanentNotesOf h))).
  pose proof (collect_readResult (permanentNotesOf h) h1) as Hh.
  destruct (collect readResult (permanentNotesOf h) h1) as [[contents|msg] h2];
    simpl in Hh; subst h2.
  2: { simpl. rewrite readsOf_app, readsOf_readEvents. reflexivity. }
  unfold mbind, Async_bind.
  match goal with |- context [callLLM settings ?prompt h1] =>
    destruct (callLLM_effect settings prompt h1) as (t & Ht & Hr);
    destruct (callLLM settings prompt h1) as [[response|msg] h2]
  end; simpl in Ht; subst h2.
  - destruct (JSON_parse response); simpl;
      rewrite !readsOf_app, readsOf_readEvents, Hr, app_nil_r; reflexivity.
  - simpl. rewrite !readsOf_app, readsOf_readEvents, Hr, app_nil_r; reflexivity.
Qed.

Lemma findSimilarNotes_reads settings content h :
  exists done,
    done `prefix_of` permanentNotesOf h
    /\ readsOf (trace (snd (findSimilarNotes settings content h)))
       = readsOf (trace h) ++ List.map path done
    /\ (forall cs, fst (findSimilarNotes settings content h) = Returned cs ->
                   done = permanentNotesOf h).
Proof.
  rewrite findSimilarNotes_run.
  destruct (scanSimilar_reads settings content (permanentNotesOf h) [] h)
    as (t & done & Ht & Hr & Hp & Hall).
  exists done.
  destruct (scanSimilar settings content (permanentNotesOf h) [] h)
    as [[similarities|msg] h1]; simpl in *; subst h1; simpl;
    rewrite readsOf_app, Hr; repeat split; auto; try discriminate.
  intros cs _. eapply Hall. reflexivity.
Qed.

Lemma scanSimilar_folder settings folder content fs : forall acc h,
  scanSimilar (withPermanentNotesFolder settings folder) content fs acc h
  = scanSimilar settings content fs acc h.
Proof.
  induction fs as [|f rest IH]; intros acc h; [reflexivity|].
  rewrite !scanSimilar_cons. cbv zeta.
  destruct (contentAt (path f) (files h)) as [noteContent|]; [|reflexivity].
  change (connectionThreshold (withPermanentNotesFolder settings folder))
    with (connectionThreshold settings).
  change (explainConnection (withPermanentNotesFolder settings folder))
    with (explainConnection settings).
  destruct (Js.gt _ _); [|apply IH].
  destruct (explainConnection settings content noteContent _) as [[why|msg] h2];
    [apply IH | reflexivity].
Qed.

Lemma explainConnection_effect settings content1 content2 h :
  exists t, snd (explainConnection settings content1 content2 h)
            = withTrace h (trace h ++ t)
            /\ readsOf t = [].
Proof. unfold explainConnection. apply callLLM_effect. Qed.

(** A loop that fails has read its files up to one that scored above the
    threshold and whose explanation failed: the loop over the files before
    it returned, and the failure is the failure of that explanation. *)
Lemma scanSimilar_stops settings content (F : list (TFile * string)) fs :
  forall acc h msg h',
  files h = F ->
  (forall f, f ∈ fs -> is_Some (contentAt (path f) F)) ->
  scanSimilar settings content fs acc h = (Thrown msg, h') ->
  exists done f rest found h1,
    fs = done ++ f :: rest
    /\ scanSimilar settings content done acc h = (Returned found, h1)
    /\ Js.gt (calculateSimilarity content (default EmptyString (contentAt (path f) F)))
             (connectionThreshold settings) = true
    /\ explainConnection settings content (default EmptyString (contentAt (path f) F))
         (withTrace h1 (trace h1 ++ [VaultRead (path f)]))
       = (Thrown msg, h')
    /\ readsOf (trace h') = readsOf (trace h) ++ List.map path (done ++ [f]).
Proof.
  induction fs as [|f0 rest0 IH]; intros acc h msg h' HF Hread Hrun.
  - simpl in Hrun. discriminate.
  - assert (Hrest : forall g, g ∈ rest0 -> is_Some (contentAt (path g) F)).
    { intros g Hg. apply Hread. by right. }
    destruct (Hread f0) as [c Hc]; [left|].
    pose proof (scanSimilar_cons settings content f0 rest0 acc h) as Hcons.
    cbv zeta in Hcons. rewrite HF, Hc in Hcons.
    set (h1 := withTrace h (trace h ++ [VaultRead (path f0)])) in *.
    destruct (Js.gt (calculateSimilarity content c) (connectionThreshold settings))
      eqn:Hgt.
    + destruct (explainConnection_effect settings content c h1) as (t1 & Ht1 & Hr1).
      destruct (explainConnection settings content c h1) as [[why|m] h2] eqn:Hex;
        cbn [snd] in Ht1.
      * rewrite Hcons in Hrun.
        destruct (IH _ h2 msg h' (eq_trans (f_equal files Ht1) HF) Hrest Hrun)
          as (done & f & rest & found & hk & -> & Hdone & Hg & Hfail & Hreads).
        exists (f0 :: done), f, rest, found, hk.
        split; [reflexivity|]. split.
        { rewrite scanSimilar_cons. cbv zeta. rewrite HF, Hc, Hgt.
          fold h1. rewrite Hex. exact Hdone. }
        split; [exact Hg|]. split; [exact Hfail|].
        rewrite Hreads, Ht1. unfold h1. simpl.
        rewrite !readsOf_app, Hr1. simpl.
        rewrite app_nil_r, <- app_assoc. reflexivity.
      * rewrite Hcons in Hrun. inversion Hrun; subst m h'.
        exists [], f0, rest0, acc, h.
        split; [reflexivity|]. split; [reflexivity|].
        rewrite Hc. simpl. fold h1.
        split; [exact Hgt|]. split; [exact Hex|].
        rewrite Ht1. unfold h1. simpl.
        rewrite !readsOf_app, Hr1. simpl. rewrite app_nil_r. reflexivity.
    + rewrite Hcons in Hrun.
      destruct (IH _ h1 msg h' HF Hrest Hrun)
        as (done & f & rest & found & hk & -> & Hdone & Hg & Hfail & Hreads).
      exists (f0 :: done), f, rest, found, hk.
      split; [reflexivity|]. split.
      { rewrite scanSimilar_cons. cbv zeta. rewrite HF, Hc, Hgt.
        fold h1. exact Hdone. }
      split; [exact Hg|]. split; [exact Hfail|].
      rewrite Hreads. unfold h1. simpl.
      rewrite !readsOf_app. simpl. rewrite <- app_assoc. reflexivity.
Qed.

Lemma findSimilarNotes_returned_reads settings content h cs :
  fst (findSimilarNotes settings content h) = Returned cs ->
  readsOf (trace (snd (findSimilarNotes settings content h)))
  = readsOf (trace h) ++ List.map path (permanentNotesOf h).
Proof.
  intros Hret.
  destruct (findSimilarNotes_reads settings content h) as (done & _ & Hreads & Hall).
  rewrite Hreads, (Hall cs Hret). reflexivity.
Qed.

Lemma findSimilarNotes_thrown_reads settings content h msg :
  fst (findSimilarNotes settings content h) = Thrown msg ->
  exists done f rest found h1,
    permanentNotesOf h = done ++ f :: rest
    /\ scanSimilar settings content done [] h = (Returned found, h1)
    /\ Js.gt (scoreOf content h f) (connectionThreshold settings) = true
    /\ explainConnection settings content (textOf h f)
         (withTrace h1 (trace h1 ++ [VaultRead (path f)]))
       = (Thrown msg, snd (findSimilarNotes settings content h))
    /\ readsOf (trace (snd (findSimilarNotes settings content h)))
       = readsOf (trace h) ++ List.map path (done ++ [f]).
Proof.
  rewrite findSimilarNotes_run.
  destruct (scanSimilar settings content (permanentNotesOf h) [] h)
    as [[similarities|m] h'] eqn:Hrun; simpl; [discriminate|].
  intros Hm. injection Hm as ->.
  exact (scanSimilar_stops settings content (files h) (permanentNotesOf h)
           [] h msg h' eq_refl (permanentNotesOf_listed h) Hrun).
Qed.

(** C10, as stated, fails for [findSimilarNotes]: with no API key the first
    explanation request fails and ends the loop, and the permanent notes
    after it are never read.  Here three vault files have the prefix and
    two of them are read. *)
Lemma C10_scan_stops_early :
  let h := hostWith sampleVault None (JsonBody (JObj [])) in
  List.map path (permanentNotesOf h)
  = ["Permanent Notes/links.md"; "Permanent Notes/atomic.md"; "Permanent Notes/garden.md"]
  /\ findSimilarNotes DEFAULT_SETTINGS "atomic notes" h
     = (Thrown "API key not configured",
        withTrace h [VaultRead "Permanent Notes/links.md";
                     VaultRead "Permanent Notes/atomic.md"])
  /\ readsOf (trace (snd (findSimilarNotes DEFAULT_SETTINGS "atomic notes" h)))
     = ["Permanent Notes/links.md"; "Permanent Notes/atomic.md"].
Proof. vm_compute. repeat split. Qed.

(** C10, amended: [findSimilarNotes], [identifyWritingTopics] and
    [findOrphanedNotes] take their documents from the vault files whose
    path starts with "Permanent Notes/", whatever [permanentNotesFolder]
    is set to.  Replacing that setting changes neither the outcome nor the
    effects of any of the three.  [findOrphanedNotes] and
    [identifyWritingTopics] read exactly those files, each once, in vault
    order.  So does [findSimilarNotes] when it returns; when it fails, it
    has read exactly those files up to and including the first one that
    scored above the threshold and whose explanation request failed: the
    loop over the files before that one returned, and the failure of
    [findSimilarNotes] is the failure of that request. *)
Theorem C10_scanned_permanent_notes
    (JSON_parse : value -> option json) (settings : ZettelkastenSettings)
    (folder content : string) (h : Host) :
  findSimilarNotes (withPermanentNotesFolder settings folder) content h
    = findSimilarNotes settings content h
  /\ identifyWritingTopics JSON_parse (withPermanentNotesFolder settings folder) h
     = identifyWritingTopics JSON_parse settings h
  /\ findOrphanedNotes (withPermanentNotesFolder settings folder) h
     = findOrphanedNotes settings h
  /\ (forall f, f ∈ permanentNotesOf h
                <-> f ∈ List.map fst (files h)
                    /\ Js.startsWith (path f) "Permanent Notes/" = true)
  /\ readsOf (trace (snd (findOrphanedNotes settings h)))
     = readsOf (trace h) ++ List.map path (permanentNotesOf h)
  /\ readsOf (trace (snd (identifyWritingTopics JSON_parse settings h)))
     = readsOf (trace h) ++ List.map path (permanentNotesOf h)
  /\ (forall cs,
        fst (findSimilarNotes settings content h) = Returned cs ->
        readsOf (trace (snd (findSimilarNotes settings content h)))
        = readsOf (trace h) ++ List.map path (permanentNotesOf h))
  /\ (forall msg,
        fst (findSimilarNotes settings content h) = Thrown msg ->
        exists done f rest found h1,
          permanentNotesOf h = done ++ f :: rest
          /\ scanSimilar settings content done [] h = (Returned found, h1)
          /\ Js.gt (scoreOf content h f) (connectionThreshold settings) = true
          /\ explainConnection settings content (textOf h f)
               (withTrace h1 (trace h1 ++ [VaultRead (path f)]))
             = (Thrown msg, snd (findSimilarNotes settings content h))
          /\ readsOf (trace (snd (findSimilarNotes settings content h)))
             = readsOf (trace h) ++ List.map path (done ++ [f])).
Proof.
  split; [rewrite !findSimilarNotes_run, scanSimilar_folder; reflexivity|].
  split; [reflexivity|]. split; [reflexivity|].
  split; [apply permanentNotesOf_spec|].
  split; [apply findOrphanedNotes_reads|].
  split; [apply identifyWritingTopics_reads|].
  split; [apply findSimilarNotes_returned_reads|].
  apply findSimilarNotes_thrown_reads.
Qed.

(** With a key and an endpoint that answers, the three permanent notes of
    the sample vault are all read; without a key the scan ends at
    "Permanent Notes/atomic.md", the first note above the threshold. *)
Lemma C10_scanned_permanent_notes_witness :
  readsOf (trace (snd (findSimilarNotes lowThreshold "atomic notes"
                         (hostWith sampleVault None (JsonBody (messagesShape "related"))))))
  = ["Permanent Notes/links.md"; "Permanent Notes/atomic.md"; "Permanent Notes/garden.md"]
  /\ exists done f rest,
       permanentNotesOf (hostWith sampleVault None (JsonBody (JObj [])))
       = done ++ f :: rest
       /\ readsOf (trace (snd (findSimilarNotes DEFAULT_SETTINGS "atomic notes"
                                 (hostWith sampleVault None (JsonBody (JObj []))))))
          = List.map path (done ++ [f]).
Proof.
  split.
  - refine (proj1 (proj2 (proj2 (proj2 (proj2 (proj2 (proj2
              (C10_scanned_permanent_notes (fun _ => None) lowThreshold "Notes"
                 "atomic notes"
                 (hostWith sampleVault None (JsonBody (messagesShape "related")))))))))) _ _).
    vm_compute. reflexivity.
  - destruct (proj2 (proj2 (proj2 (proj2 (proj2 (proj2 (proj2
              (C10_scanned_permanent_notes (fun _ => None) DEFAULT_SETTINGS "Notes"
                 "atomic notes"
                 (hostWith sampleVault None (JsonBody (JObj []))))))))))
              "API key not configured" eq_refl)
      as (done & f & rest & found & h1 & Hsplit & _ & _ & _ & Hreads).
    exists done, f, rest. split; [exact Hsplit | exact Hreads].
Defined.

(** ** The Promote workflow: C6 *)

Lemma vaultWrites_after h t :
  List.filter isVaultWrite t = [] ->
  vaultWrites (withTrace h (trace h ++ t)) = vaultWrites h.
Proof.
  intros Ht. unfold vaultWrites. simpl.
  rewrite List.filter_app, Ht, app_nil_r. reflexivity.
Qed.



(** ** The Capture workflow: C7 *)

Lemma append_cons c s t : String c s +:+ t = String c (s +:+ t).
Proof. reflexivity. Qed.

Lemma append_assoc_string (a b c : string) : (a +:+ b) +:+ c = a +:+ (b +:+ c).
Proof.
  induction a as [|x a IH]; [reflexivity|].
  rewrite !append_cons, IH. reflexivity.
Qed.

Lemma append_empty_r (a : string) : a +:+ EmptyString = a.
Proof. induction a as [|x a IH]; [reflexivity|]. by rewrite append_cons, IH. Qed.

Lemma lazyUntil_eq stop s :
  lazyUntil stop s =
  if Js.startsWith s stop then Some EmptyString
  else match s with
       | EmptyString => None
       | String c r => option_map (String c) (lazyUntil stop r)
       end.
Proof. destruct s; reflexivity. Qed.

Lemma startsWith_fence c r :
  Js.startsWith (String c r) fence
  = if Ascii.eqb c Js.LF then Js.startsWith r "---" else false.
Proof. unfold fence. cbn [Js.startsWith]. destruct (Ascii.eqb c Js.LF); reflexivity. Qed.

Lemma singleLine_cons c a :
  singleLine (String c a) = true -> Ascii.eqb c Js.LF = false /\ singleLine a = true.
Proof.
  unfold singleLine. simpl. rewrite negb_orb. intros H.
  apply andb_true_iff in H as [H1 H2]. apply negb_true_iff in H1. auto.
Qed.

(** Reading one line that holds no line feed. *)
Lemma lazyUntil_line a r :
  singleLine a = true ->
  lazyUntil fence (a +:+ String Js.LF r)
  = if Js.startsWith r "---" then Some a
    else option_map (fun x => a +:+ String Js.LF x) (lazyUntil fence r).
Proof.
  induction a as [|c a IH]; intros Ha.
  - change (EmptyString +:+ String Js.LF r) with (String Js.LF r).
    rewrite lazyUntil_eq, startsWith_fence. simpl.
    destruct (Js.startsWith r "---"); [reflexivity|].
    destruct (lazyUntil fence r); reflexivity.
  - apply singleLine_cons in Ha as [Hc Ha].
    rewrite append_cons, lazyUntil_eq, startsWith_fence, Hc, (IH Ha).
    destruct (Js.startsWith r "---"); [reflexivity|].
    destruct (lazyUntil fence r); reflexivity.
Qed.

Lemma splitChar_from_line sep a : forall cur r,
  Js.includesChar sep a = false ->
  Js.splitChar_from sep cur (a +:+ String sep r)
  = (cur +:+ a) :: Js.splitChar_from sep EmptyString r.
Proof.
  induction a as [|c a IH]; intros cur r Ha.
  - change (EmptyString +:+ String sep r) with (String sep r).
    simpl. rewrite Ascii.eqb_refl, append_empty_r. reflexivity.
  - simpl in Ha. apply orb_false_iff in Ha as [Hc Ha].
    rewrite append_cons. simpl. rewrite Hc, (IH _ _ Ha), append_assoc_string.
    reflexivity.
Qed.

Lemma splitChar_from_last sep a : forall cur,
  Js.includesChar sep a = false ->
  Js.splitChar_from sep cur a = [cur +:+ a].
Proof.
  induction a as [|c a IH]; intros cur Ha.
  - simpl. rewrite append_empty_r. reflexivity.
  - simpl in Ha. apply orb_false_iff in Ha as [Hc Ha].
    simpl. rewrite Hc, (IH _ Ha), append_assoc_string. reflexivity.
Qed.

(** The front-matter block of the template is its three lines. *)
Lemma matchFrontmatter_template iso timestamp content :
  singleLine iso = true ->
  matchFrontmatter (fleetingNoteContent iso timestamp content)
  = Some ("type: fleeting" +:+ String Js.LF
            (("created: " +:+ iso) +:+ String Js.LF "processed: false")).
Proof.
  intros Hiso.
  change (matchFrontmatter (fleetingNoteContent iso timestamp content))
    with (lazyUntil fence
            ("type: fleeting" +:+ String Js.LF
               (("created: " +:+ iso) +:+ String Js.LF
                  ("processed: false" +:+ String Js.LF
                     ("---" +:+ nl +:+ nl +:+ "# Fleeting Note - " +:+ timestamp +:+ nl
                      +:+ nl +:+ content +:+ nl +:+ nl +:+ "## Processing Notes" +:+ nl
                      +:+ "<!-- AI will add processing suggestions here -->" +:+ nl))))).
  rewrite (lazyUntil_line "type: fleeting") by reflexivity.
  change (Js.startsWith (("created: " +:+ iso) +:+ _) "---") with false.
  cbv iota.
  rewrite (lazyUntil_line ("created: " +:+ iso)) by exact Hiso.
  change (Js.startsWith ("processed: false" +:+ _) "---") with false.
  cbv iota.
  rewrite (lazyUntil_line "processed: false") by reflexivity.
  reflexivity.
Qed.

Lemma lines_template iso :
  singleLine iso = true ->
  Js.splitChar Js.LF ("type: fleeting" +:+ String Js.LF
                        (("created: " +:+ iso) +:+ String Js.LF "processed: false"))
  = ["type: fleeting"; "created: " +:+ iso; "processed: false"].
Proof.
  intros Hiso. unfold Js.splitChar.
  rewrite (splitChar_from_line Js.LF "type: fleeting") by reflexivity.
  rewrite (splitChar_from_line Js.LF ("created: " +:+ iso))
    by (apply negb_true_iff; exact Hiso).
  rewrite (splitChar_from_last Js.LF "processed: false") by reflexivity.
  reflexivity.
Qed.

(** The extractor applied to the template of Capture. *)
Lemma extractFrontmatter_template iso timestamp content :
  singleLine iso = true ->
  exists created,
    extractFrontmatter (fleetingNoteContent iso timestamp content)
    = fromEntries [("type", "fleeting"); ("created", created); ("processed", "false")].
Proof.
  intros Hiso. unfold extractFrontmatter.
  rewrite (matchFrontmatter_template _ _ _ Hiso), (lines_template _ Hiso).
  eexists. reflexivity.
Qed.

Lemma fleetingNote_roundtrip iso timestamp content :
  singleLine iso = true ->
  extractFrontmatter (fleetingNoteContent iso timestamp content) !! "type"
    = Some "fleeting"
  /\ extractFrontmatter (fleetingNoteContent iso timestamp content) !! "processed"
     = Some "false".
Proof.
  intros Hiso.
  destruct (extractFrontmatter_template iso timestamp content Hiso) as [created ->].
  unfold fromEntries. simpl. split.
  - rewrite !lookup_insert_ne by discriminate. apply lookup_insert_eq.
  - apply lookup_insert_eq.
Qed.

(** The vault after Capture: as before, or with one more file that holds
    the template filled in with the second clock reading. *)
Lemma createFleetingNote_files settings answer h :
  files (snd (createFleetingNote settings answer h)) = files h
  \/ exists f,
       files (snd (createFleetingNote settings answer h))
       = files h ++ [(f, fleetingNoteContent (clock h (S (ticks h)))
                           (Js.sliceTo 19 (dashed (clock h (ticks h)))) answer)].
Proof.
  unfold createFleetingNote, mbind at 1, Async_bind at 1, openModal, emit.
  destruct (isEmpty answer); [left; reflexivity|].
  unfold generateTimestamp, mbind, Async_bind, nowISO, mret, Async_ret. simpl.
  unfold createNote, mbind, Async_bind, adapterExists. simpl.
  match goal with |- context [if ?b then _ else _] => destruct b end.
  - unfold vaultCreate. simpl.
    match goal with |- context [bool_decide ?P] => destruct (bool_decide P) end;
      simpl; [left; reflexivity | right; eexists; reflexivity].
  - unfold createFolder. simpl.
    match goal with |- context [bool_decide ?P] => destruct (bool_decide P) end;
      simpl; [left; reflexivity|].
    unfold vaultCreate. simpl.
    match goal with |- context [bool_decide ?P] => destruct (bool_decide P) end;
      simpl; [left; reflexivity | right; eexists; reflexivity].
Qed.

(** C7: whatever the user typed, a document that Capture adds to the vault
    parses, with the front-matter extractor, to a mapping that gives [type]
    the value "fleeting" and [processed] the value "false".  The clock is
    taken to render timestamps without a line feed, as ISO-8601 does. *)
Theorem C7_capture_roundtrip (settings : ZettelkastenSettings) (answer : string) (h : Host) :
  (forall k, singleLine (clock h k) = true) ->
  forall f c,
    (f, c) ∈ files (snd (createFleetingNote settings answer h)) ->
    (f, c) ∉ files h ->
    extractFrontmatter c !! "type" = Some "fleeting"
    /\ extractFrontmatter c !! "processed" = Some "false".
Proof.
  intros Hclock f c Hin Hnew.
  destruct (createFleetingNote_files settings answer h) as [Hsame|[g Hadded]].
  - rewrite Hsame in Hin. contradiction.
  - rewrite Hadded in Hin. apply elem_of_app in Hin as [Hold|Hlast]; [contradiction|].
    apply list_elem_of_singleton in Hlast. inversion Hlast; subst.
    apply fleetingNote_roundtrip, Hclock.
Qed.

Lemma C7_capture_roundtrip_witness :
  extractFrontmatter
    (fleetingNoteContent "2024-05-06T07:08:09.010Z" "2024-05-06T07-08-09" "idea about X")
    !! "type" = Some "fleeting"
  /\ extractFrontmatter
       (fleetingNoteContent "2024-05-06T07:08:09.010Z" "2024-05-06T07-08-09" "idea about X")
       !! "processed" = Some "false".
Proof.
  refine (C7_capture_roundtrip keyed "idea about X"
            (hostWith [] None (JsonBody (JObj []))) (fun _ => eq_refl)
            (note "Fleeting Notes/Fleeting-2024-05-06T07-08-09.md"
                  "Fleeting-2024-05-06T07-08-09.md")
            _ _ _).
  - vm_compute. left.
  - apply not_elem_of_nil.
Defined.

(** * Further properties *)

(** ** The similarity estimator *)

Lemma elem_of_setOf_from l : forall seen x,
  x ∈ Js.setOf_from seen l <-> x ∈ l /\ x ∉ seen.
Proof.
  induction l as [|y r IH]; intros seen x; simpl.
  - split; [intros H; inversion H | intros [H _]; inversion H].
  - destruct (Js.includes seen y) eqn:Hy.
    + apply includes_true in Hy. rewrite IH, elem_of_cons.
      split; [tauto|]. intros [[->|H] Hs]; tauto.
    + apply includes_false in Hy. rewrite elem_of_cons, IH, !elem_of_cons.
      split.
      * intros [->|[H Hs]]; [tauto|]. split; [tauto|]. intros Hx. apply Hs. by right.
      * intros [[->|H] Hs]; [tauto|].
        destruct (decide (x = y)) as [->|Hne]; [tauto|].
        right. split; [exact H|]. intros [?|?]; tauto.
Qed.

Lemma NoDup_setOf_from l : forall seen, NoDup (Js.setOf_from seen l).
Proof.
  induction l as [|y r IH]; intros seen; simpl; [constructor|].
  destruct (Js.includes seen y); [apply IH|].
  constructor; [|apply IH].
  rewrite elem_of_setOf_from. intros [_ H]. apply H. left.
Qed.

Lemma elem_of_unionOf w1 w2 x : x ∈ unionOf w1 w2 <-> x ∈ w1 \/ x ∈ w2.
Proof.
  unfold unionOf, Js.setOf. rewrite elem_of_setOf_from, elem_of_app.
  split; [tauto|]. intros H. split; [exact H|]. intros Hx. inversion Hx.
Qed.

Lemma elem_of_intersectionOf w1 w2 x : x ∈ intersectionOf w1 w2 <-> x ∈ w1 /\ x ∈ w2.
Proof.
  unfold intersectionOf. rewrite list_elem_of_In, filter_In, <- list_elem_of_In.
  rewrite includes_true. reflexivity.
Qed.

Lemma NoDup_intersectionOf w1 w2 : NoDup w1 -> NoDup (intersectionOf w1 w2).
Proof.
  unfold intersectionOf. induction 1 as [|x l Hx Hl IH]; simpl; [constructor|].
  destruct (Js.includes w2 x); [|exact IH].
  constructor; [|exact IH].
  rewrite list_elem_of_In, filter_In, <- list_elem_of_In. tauto.
Qed.

Lemma divLengths_unit_interval n m :
  n <= m -> m <> 0 ->
  Js.le (Js.Num 0) (Js.divLengths n m) = true
  /\ Js.le (Js.divLengths n m) (Js.Num 1) = true.
Proof.
  intros Hnm Hm. destruct m as [|k]; [congruence|].
  unfold Js.divLengths, Js.le. split; apply Qle_bool_iff; rewrite Qred_correct;
    unfold Qle; simpl; lia.
Qed.

(** X1: the score is a finite number that is not negative, for all
    texts: the union is never empty, so the division never yields [NaN]
    or an infinity. *)
Theorem X1_similarity_is_finite (content1 content2 : string) :
  exists q, calculateSimilarity content1 content2 = Js.Num q /\ (0 <= q)%Q.
Proof. apply calculateSimilarity_finite. Qed.

(** X2: when the first text repeats no word, the score lies between 0
    and 1, whatever the second text is. *)
Theorem X2_similarity_bounded (content1 content2 : string) :
  NoDup (words content1) ->
  Js.le (Js.Num 0) (calculateSimilarity content1 content2) = true
  /\ Js.le (calculateSimilarity content1 content2) (Js.Num 1) = true.
Proof.
  intros Hnd. unfold calculateSimilarity. apply divLengths_unit_interval.
  - apply submseteq_length, NoDup_submseteq.
    + apply NoDup_intersectionOf, Hnd.
    + intros x Hx. apply elem_of_intersectionOf in Hx as [Hx _].
      apply elem_of_unionOf. by left.
  - pose proof (unionOf_nonempty (words content1) (words content2)
                  (words_nonempty content1)).
    destruct (unionOf _ _); simpl; congruence.
Qed.

Lemma X2_similarity_bounded_witness :
  Js.le (calculateSimilarity "atomic notes" "notes notes notes") (Js.Num 1) = true.
Proof.
  refine (proj2 (X2_similarity_bounded "atomic notes" "notes notes notes" _)).
  refine (bool_decide_unpack _ _). vm_compute. exact I.
Defined.

(** X3: on two texts that repeat no word the score is symmetric. *)
Theorem X3_similarity_symmetric (content1 content2 : string) :
  NoDup (words content1) -> NoDup (words content2) ->
  calculateSimilarity content1 content2 = calculateSimilarity content2 content1.
Proof.
  intros H1 H2. unfold calculateSimilarity. f_equal.
  - apply Permutation_length, NoDup_Permutation.
    + apply NoDup_intersectionOf, H1.
    + apply NoDup_intersectionOf, H2.
    + intros x. rewrite !elem_of_intersectionOf. tauto.
  - apply Permutation_length, NoDup_Permutation.
    + apply NoDup_setOf_from.
    + apply NoDup_setOf_from.
    + intros x. rewrite !elem_of_unionOf. tauto.
Qed.

Lemma X3_similarity_symmetric_witness :
  calculateSimilarity "Atomic notes" "notes link ideas"
  = calculateSimilarity "notes link ideas" "Atomic notes".
Proof.
  refine (X3_similarity_symmetric "Atomic notes" "notes link ideas" _ _);
    refine (bool_decide_unpack _ _); vm_compute; exact I.
Defined.

(** X4: the score is 0 exactly when no word of the first text occurs in
    the second one. *)
Theorem X4_similarity_zero (content1 content2 : string) :
  calculateSimilarity content1 content2 = Js.Num 0
  <-> forall w, w ∈ words content1 -> w ∉ words content2.
Proof.
  unfold calculateSimilarity.
  pose proof (unionOf_nonempty (words content1) (words content2)
                (words_nonempty content1)) as Hu.
  destruct (unionOf (words content1) (words content2)) as [|u us]; [congruence|].
  simpl length. unfold Js.divLengths.
  split.
  - intros H w Hw1 Hw2.
    assert (Hin : w ∈ intersectionOf (words content1) (words content2))
      by (apply elem_of_intersectionOf; tauto).
    destruct (intersectionOf (words content1) (words content2)) as [|i ir];
      [inversion Hin|].
    injection H as Hq.
    pose proof (Qred_correct (Z.of_nat (S (length ir)) # Pos.of_nat (S (length us))))
      as Hz.
    rewrite Hq in Hz. unfold Qeq in Hz. simpl in Hz. lia.
  - intros H.
    destruct (intersectionOf (words content1) (words content2)) as [|i ir] eqn:Hi.
    + reflexivity.
    + exfalso. assert (Hin : i ∈ intersectionOf (words content1) (words content2))
        by (rewrite Hi; left).
      apply elem_of_intersectionOf in Hin as [Ha Hb]. exact (H i Ha Hb).
Qed.

(** ** The generation client *)

Lemma httpPosts_after h t :
  httpPosts (withTrace h (trace h ++ t)) = httpPosts h ++ List.filter isHttpPost t.
Proof. unfold httpPosts. simpl. apply List.filter_app. Qed.

Lemma callLLM_posts settings prompt h :
  isEmpty (apiKey settings) = false ->
  httpPosts (snd (callLLM settings prompt h))
  = httpPosts h ++ [HttpPost (requestFor settings prompt)].
Proof.
  intros Hkey. rewrite (callLLM_keyed settings prompt h Hkey). cbv zeta.
  destruct (remote h _ _) as [msg|msg|data]; [| |destruct data]; cbn [snd];
    rewrite httpPosts_after; reflexivity.
Qed.

(** X5: with an API key the client posts exactly one request, whatever
    the outcome: to the configured endpoint, with the key as bearer token,
    the prompt as the user message and a cap of 2000 tokens; the vault is
    not touched. *)
Theorem X5_callLLM_posts_once (settings : ZettelkastenSettings) (prompt : string) (h : Host) :
  isEmpty (apiKey settings) = false ->
  exists r,
    httpPosts (snd (callLLM settings prompt h)) = httpPosts h ++ [HttpPost r]
    /\ url r = apiEndpoint settings
    /\ authorization r = "Bearer " +:+ apiKey settings
    /\ model r = (match apiProvider settings with
                  | openai => "gpt-4"
                  | _ => "claude-3-sonnet-20240229"
                  end)
    /\ userMessage r = prompt
    /\ max_tokens r = 2000
    /\ files (snd (callLLM settings prompt h)) = files h
    /\ folders (snd (callLLM settings prompt h)) = folders h
    /\ vaultWrites (snd (callLLM settings prompt h)) = vaultWrites h.
Proof.
  intros Hkey. exists (requestFor settings prompt).
  rewrite (callLLM_keyed settings prompt h Hkey). cbv zeta.
  destruct (remote h _ _) as [msg|msg|data]; [| |destruct data]; cbn [snd];
    rewrite httpPosts_after, vaultWrites_after by reflexivity;
    repeat split.
Qed.

Lemma X5_callLLM_posts_once_witness :
  exists r,
    httpPosts (snd (callLLM keyed "Explain" (hostWith [] None (NetworkFailure "offline"))))
    = [HttpPost r]
    /\ authorization r = "Bearer sk-test".
Proof.
  destruct (X5_callLLM_posts_once keyed "Explain"
              (hostWith [] None (NetworkFailure "offline")) eq_refl)
    as (r & Hposts & _ & Hauth & _).
  exists r. split; [exact Hposts | exact Hauth].
Defined.

(** X6: the client returns a value exactly when an API key is set and
    the endpoint answers with a JSON body other than [null]; a missing
    key, a failed request, a body that is not JSON and the body [null]
    all make it throw. *)
Theorem X6_callLLM_returns_iff (settings : ZettelkastenSettings) (prompt : string) (h : Host) :
  (exists v, fst (callLLM settings prompt h) = Returned v)
  <-> isEmpty (apiKey settings) = false
      /\ exists data,
           remote h (length (httpPosts h)) (requestFor settings prompt) = JsonBody data
           /\ data <> JNull.
Proof.
  destruct (isEmpty (apiKey settings)) eqn:Hkey.
  - unfold callLLM. rewrite Hkey. simpl. split.
    + intros [v Hv]. discriminate.
    + intros [Hf _]. discriminate.
  - rewrite (callLLM_keyed settings prompt h Hkey). cbv zeta.
    destruct (remote h _ _) as [msg|msg|data]; [| |destruct data]; simpl; split;
      try (intros [v Hv]; discriminate);
      try (intros [_ (data & Hd & Hn)]; inversion Hd; subst; congruence);
      first [ intros _; eexists; reflexivity
            | intros _; (split; [reflexivity|]); eexists;
              (split; [reflexivity|discriminate]) ].
Qed.

Lemma extractCompletion_truthy data :
  extractCompletion data = Some (JStr EmptyString)
  \/ truthy (extractCompletion data) = true.
Proof.
  destruct (truthy (chatCompletionPath data)) eqn:H1.
  - right. unfold extractCompletion, orElse.
    rewrite H1. cbv iota. rewrite H1. cbv iota. exact H1.
  - destruct (truthy (messagesPath data)) eqn:H2.
    + right. unfold extractCompletion, orElse.
      rewrite H1. cbv iota. rewrite H2. cbv iota. exact H2.
    + left. unfold extractCompletion, orElse.
      rewrite H1. cbv iota. rewrite H2. reflexivity.
Qed.

(** X7: a value the client returns is the empty text or a truthy value:
    never [undefined], [null], [false] or [0]. *)
Theorem X7_callLLM_value (settings : ZettelkastenSettings) (prompt : string) (h : Host)
    (v : value) :
  fst (callLLM settings prompt h) = Returned v ->
  v = Some (JStr EmptyString) \/ truthy v = true.
Proof.
  destruct (isEmpty (apiKey settings)) eqn:Hkey.
  - unfold callLLM. rewrite Hkey. discriminate.
  - rewrite (callLLM_keyed settings prompt h Hkey). cbv zeta.
    destruct (remote h _ _) as [msg|msg|data]; [| |destruct data]; simpl;
      try discriminate;
      intros Hv; injection Hv as <-; apply extractCompletion_truthy.
Qed.

Lemma X7_callLLM_value_witness :
  Some (JStr "hi") = Some (JStr EmptyString) \/ truthy (Some (JStr "hi")) = true.
Proof.
  exact (X7_callLLM_value keyed "Explain"
           (hostWith [] None (JsonBody (messagesShape "hi"))) (Some (JStr "hi")) eq_refl).
Defined.

(** A JSON body that is a boolean, a number, a text or an array holds
    neither field path: the client returns the empty text. *)
Lemma callLLM_non_object (settings : ZettelkastenSettings) (prompt : string) (h : Host)
    (data : json) :
  isEmpty (apiKey settings) = false ->
  remote h (length (httpPosts h)) (requestFor settings prompt) = JsonBody data ->
  match data with JNull | JObj _ => False | _ => True end ->
  fst (callLLM settings prompt h) = Returned (Some (JStr EmptyString)).
Proof.
  intros Hkey Hremote Hdata.
  rewrite (callLLM_keyed settings prompt h Hkey). cbv zeta. rewrite Hremote.
  destruct data; try contradiction; reflexivity.
Qed.


(** ** The Connect workflow *)

Lemma untouched_refl h : untouched h h.
Proof. repeat split. Qed.

Lemma untouched_trans h1 h2 h3 : untouched h1 h2 -> untouched h2 h3 -> untouched h1 h3.
Proof. unfold untouched. intros (A1 & B1 & C1) (A2 & B2 & C2). repeat split; congruence. Qed.

Lemma untouched_withTrace h t :
  List.filter isVaultWrite t = [] -> untouched h (withTrace h (trace h ++ t)).
Proof. intros Ht. repeat split. apply vaultWrites_after, Ht. Qed.

Lemma callLLM_untouched settings prompt h : untouched h (snd (callLLM settings prompt h)).
Proof.
  destruct (isEmpty (apiKey settings)) eqn:Hkey.
  - unfold callLLM. rewrite Hkey. apply untouched_refl.
  - rewrite (callLLM_keyed settings prompt h Hkey). cbv zeta.
    destruct (remote h _ _) as [msg|msg|data]; [| |destruct data];
      apply untouched_withTrace; reflexivity.
Qed.

Lemma callLLM_returned settings prompt h v h2 :
  callLLM settings prompt h = (Returned v, h2) ->
  isEmpty (apiKey settings) = false
  /\ h2 = withTrace h (trace h ++ [HttpPost (requestFor settings prompt)]).
Proof.
  destruct (isEmpty (apiKey settings)) eqn:Hkey.
  - unfold callLLM. rewrite Hkey. discriminate.
  - rewrite (callLLM_keyed settings prompt h Hkey). cbv zeta.
    destruct (remote h _ _) as [msg|msg|data]; [| |destruct data];
      try discriminate; intros H; injection H as _ <-; split; reflexivity.
Qed.

Lemma scanSimilar_untouched settings content fs : forall acc h,
  untouched h (snd (scanSimilar settings content fs acc h)).
Proof.
  induction fs as [|f rest IH]; intros acc h; [apply untouched_refl|].
  rewrite scanSimilar_cons. cbv zeta.
  set (h1 := withTrace h (trace h ++ [VaultRead (path f)])).
  assert (H1 : untouched h h1) by (apply untouched_withTrace; reflexivity).
  destruct (contentAt (path f) (files h)) as [noteContent|]; [|exact H1].
  destruct (Js.gt _ _).
  - pose proof (callLLM_untouched settings
                  (nl +:+ "Explain how these two notes connect:" +:+ nl +:+ nl
                   +:+ "Note 1: " +:+ Js.sliceTo 200 content +:+ "..." +:+ nl
                   +:+ "Note 2: " +:+ Js.sliceTo 200 noteContent +:+ "..." +:+ nl +:+ nl
                   +:+ "Provide a brief explanation of their relationship." +:+ nl)
                  h1) as H2.
    unfold explainConnection.
    destruct (callLLM _ _ h1) as [[why|msg] h2]; cbn [snd] in H2.
    + eapply untouched_trans; [exact H1|]. eapply untouched_trans; [exact H2|apply IH].
    + eapply untouched_trans; eassumption.
  - eapply untouched_trans; [exact H1 | apply IH].
Qed.

Lemma findSimilarNotes_untouched settings content h :
  untouched h (snd (findSimilarNotes settings content h)).
Proof.
  rewrite findSimilarNotes_run.
  pose proof (scanSimilar_untouched settings content (permanentNotesOf h) [] h) as H.
  destruct (scanSimilar _ _ _ _ h) as [[cs|msg] h1]; exact H.
Qed.

(** What the loop returns, and what it costs: the suggestions are those of
    the files that score above the threshold, in order, and every one of
    them took one request. *)
Lemma scanSimilar_returned settings content (F : list (TFile * string)) fs :
  forall acc h cs h',
  files h = F ->
  scanSimilar settings content fs acc h = (Returned cs, h') ->
  List.map headline cs
  = List.map headline acc
    ++ List.map (fun f => (name f,
                           calculateSimilarity content
                             (default EmptyString (contentAt (path f) F))))
         (List.filter
            (fun f => Js.gt (calculateSimilarity content
                               (default EmptyString (contentAt (path f) F)))
                            (connectionThreshold settings)) fs)
  /\ length (httpPosts h') + length acc = length (httpPosts h) + length cs.
Proof.
  induction fs as [|f rest IH]; intros acc h cs h' HF Hrun.
  - simpl in Hrun. injection Hrun as <- <-. simpl. rewrite app_nil_r. split; reflexivity.
  - rewrite scanSimilar_cons in Hrun. cbv zeta in Hrun. rewrite HF in Hrun.
    simpl List.filter.
    destruct (contentAt (path f) F) as [noteContent|] eqn:Hc; [|discriminate].
    simpl default.
    destruct (Js.gt (calculateSimilarity content noteContent) (connectionThreshold settings)).
    + unfold explainConnection in Hrun.
      destruct (callLLM _ _ _) as [[why|msg] h2] eqn:Hcall; [|discriminate].
      apply callLLM_returned in Hcall as [_ ->].
      apply IH in Hrun as [Hcs Hposts]; [|exact HF].
      split.
      * rewrite Hcs, List.map_app, <- app_assoc. simpl. rewrite Hc. reflexivity.
      * rewrite length_app in Hposts. simpl in Hposts.
        rewrite httpPosts_after in Hposts. simpl in Hposts.
        rewrite httpPosts_after, !length_app in Hposts. simpl in Hposts. lia.
    + apply IH in Hrun as [Hcs Hposts]; [|exact HF].
      split; [exact Hcs|].
      rewrite httpPosts_after in Hposts. simpl in Hposts. rewrite app_nil_r in Hposts.
      exact Hposts.
Qed.

(** X8: when [findSimilarNotes] returns, its suggestions are those of the
    permanent notes that score above the threshold: each such note once,
    under its name and with its score, and nothing else. *)
Theorem X8_findSimilarNotes_candidates (settings : ZettelkastenSettings) (content : string)
    (h : Host) (cs : list Connection) (h' : Host) :
  findSimilarNotes settings content h = (Returned cs, h') ->
  List.map headline cs
  ≡ₚ List.map (fun f => (name f, scoreOf content h f)) (candidatesOf settings content h).
Proof.
  rewrite findSimilarNotes_run.
  destruct (scanSimilar settings content (permanentNotesOf h) [] h)
    as [[similarities|msg] h1] eqn:Hscan; [|discriminate].
  intros H; injection H as <- <-.
  apply (scanSimilar_returned settings content (files h)) in Hscan as [Hcs _];
    [|reflexivity].
  simpl in Hcs. unfold candidatesOf, scoreOf, textOf. rewrite <- Hcs.
  apply Permutation_map, sort_Permutation.
Qed.

Lemma X8_findSimilarNotes_candidates_witness :
  exists cs,
    fst (findSimilarNotes lowThreshold "atomic notes"
           (hostWith sampleVault None (JsonBody (messagesShape "related")))) = Returned cs
    /\ List.map headline cs
       ≡ₚ [("links.md", Js.Num (1 # 4)); ("atomic.md", Js.Num 1);
           ("garden.md", Js.Num (2 # 5))].
Proof.
  eexists. split; [vm_compute; reflexivity|].
  refine (X8_findSimilarNotes_candidates lowThreshold "atomic notes"
            (hostWith sampleVault None (JsonBody (messagesShape "related"))) _ _ _).
  vm_compute. reflexivity.
Defined.

(** X9: a call of [findSimilarNotes] that returns has posted one request
    for each suggestion it returns, and no other. *)
Theorem X9_one_request_per_suggestion (settings : ZettelkastenSettings) (content : string)
    (h : Host) (cs : list Connection) (h' : Host) :
  findSimilarNotes settings content h = (Returned cs, h') ->
  length (httpPosts h') = length (httpPosts h) + length cs.
Proof.
  rewrite findSimilarNotes_run.
  destruct (scanSimilar settings content (permanentNotesOf h) [] h)
    as [[similarities|msg] h1] eqn:Hscan; [|discriminate].
  intros H; injection H as <- <-.
  apply (scanSimilar_returned settings content (files h)) in Hscan as [_ Hposts];
    [|reflexivity].
  simpl in Hposts. rewrite (Permutation_length (sort_Permutation _ _)). lia.
Qed.

Lemma X9_one_request_per_suggestion_witness :
  exists cs,
    fst (findSimilarNotes lowThreshold "atomic notes"
           (hostWith sampleVault None (JsonBody (messagesShape "related")))) = Returned cs
    /\ length cs = 3
    /\ length (httpPosts (snd (findSimilarNotes lowThreshold "atomic notes"
                 (hostWith sampleVault None (JsonBody (messagesShape "related"))))))
       = 0 + length cs.
Proof.
  eexists. split; [vm_compute; reflexivity|]. split; [reflexivity|].
  refine (X9_one_request_per_suggestion lowThreshold "atomic notes"
            (hostWith sampleVault None (JsonBody (messagesShape "related"))) _ _ _).
  vm_compute. reflexivity.
Defined.

Lemma scanSimilar_no_key settings content (F : list (TFile * string)) fs :
  apiKey settings = EmptyString ->
  forall acc h,
  files h = F ->
  (forall f, f ∈ fs -> is_Some (contentAt (path f) F)) ->
  fst (scanSimilar settings content fs acc h)
  = match List.filter
            (fun f => Js.gt (calculateSimilarity content
                               (default EmptyString (contentAt (path f) F)))
                            (connectionThreshold settings)) fs with
    | [] => Returned acc
    | _ :: _ => Thrown "API key not configured"
    end
  /\ httpPosts (snd (scanSimilar settings content fs acc h)) = httpPosts h.
Proof.
  intros Hkey. induction fs as [|f rest IH]; intros acc h HF Hread.
  - split; reflexivity.
  - rewrite scanSimilar_cons. cbv zeta. rewrite HF. simpl List.filter.
    destruct (Hread f) as [noteContent Hc]; [left|]. rewrite Hc. simpl default.
    set (h1 := withTrace h (trace h ++ [VaultRead (path f)])).
    assert (Hp1 : httpPosts h1 = httpPosts h)
      by (unfold h1; rewrite httpPosts_after; apply app_nil_r).
    destruct (Js.gt (calculateSimilarity content noteContent) (connectionThreshold settings)).
    + unfold explainConnection, callLLM. rewrite Hkey. simpl. split; [reflexivity|exact Hp1].
    + destruct (IH acc h1) as [Hres Hposts]; [exact HF | |].
      * intros g Hg. apply Hread. by right.
      * rewrite Hres, Hposts. split; [reflexivity|exact Hp1].
Qed.

(** X10: without an API key [findSimilarNotes] posts nothing; it returns
    the empty list when no permanent note scores above the threshold and
    fails with "API key not configured" as soon as one does. *)
Theorem X10_connect_without_key (settings : ZettelkastenSettings) (content : string)
    (h : Host) :
  apiKey settings = EmptyString ->
  fst (findSimilarNotes settings content h)
  = match candidatesOf settings content h with
    | [] => Returned []
    | _ :: _ => Thrown "API key not configured"
    end
  /\ httpPosts (snd (findSimilarNotes settings content h)) = httpPosts h.
Proof.
  intros Hkey. rewrite findSimilarNotes_run.
  destruct (scanSimilar_no_key settings content (files h) (permanentNotesOf h) Hkey [] h
              eq_refl (permanentNotesOf_listed h)) as [Hres Hposts].
  unfold candidatesOf, scoreOf, textOf.
  destruct (scanSimilar settings content (permanentNotesOf h) [] h) as [[cs|msg] h1];
    simpl in Hres, Hposts; rewrite <- Hres; split; auto.
  destruct (List.filter _ _); inversion Hres; reflexivity.
Qed.

Lemma X10_connect_without_key_witness :
  fst (findSimilarNotes DEFAULT_SETTINGS "atomic notes"
         (hostWith sampleVault None (JsonBody (JObj []))))
  = Thrown "API key not configured"
  /\ fst (findSimilarNotes DEFAULT_SETTINGS "zettel"
            (hostWith halfVault None (JsonBody (JObj []))))
     = Returned [].
Proof.
  split.
  - exact (proj1 (X10_connect_without_key DEFAULT_SETTINGS "atomic notes"
                    (hostWith sampleVault None (JsonBody (JObj []))) eq_refl)).
  - exact (proj1 (X10_connect_without_key DEFAULT_SETTINGS "zettel"
                    (hostWith halfVault None (JsonBody (JObj []))) eq_refl)).
Defined.

(** ** The scans of the daily review and of the writing topics *)

Lemma scanOrphans_found (F : list (TFile * string)) fs : forall orphans h,
  files h = F ->
  (forall f, f ∈ fs -> is_Some (contentAt (path f) F)) ->
  scanOrphans fs orphans h
  = (Returned (orphans ++ List.map name
                 (List.filter
                    (fun f => Nat.ltb (countLinks (default EmptyString
                                                     (contentAt (path f) F))) 2) fs)),
     withTrace h (trace h ++ readEvents fs)).
Proof.
  induction fs as [|f rest IH]; intros orphans h HF Hread.
  - simpl. rewrite !app_nil_r, withTrace_same. reflexivity.
  - cbn [scanOrphans]. unfold mbind at 1. unfold Async_bind at 1.
    rewrite vaultRead_run, HF.
    destruct (Hread f) as [c Hc]; [left|]. rewrite Hc.
    simpl List.filter. rewrite Hc. simpl default.
    set (h1 := withTrace h (trace h ++ [VaultRead (path f)])).
    assert (Hrest : forall g, g ∈ rest -> is_Some (contentAt (path g) F)).
    { intros g Hg. apply Hread. by right. }
    destruct (Nat.ltb (countLinks c) 2).
    + rewrite (IH (orphans ++ [name f]) h1 HF Hrest).
      unfold h1, withTrace; simpl. rewrite <- ?app_assoc. reflexivity.
    + rewrite (IH orphans h1 HF Hrest).
      unfold h1, withTrace; simpl. rewrite <- ?app_assoc. reflexivity.
Qed.

Lemma findOrphanedNotes_run settings h :
  findOrphanedNotes settings h
  = (Returned (take 5 (List.map name (orphansOf h))),
     withTrace h (trace h ++ readEvents (permanentNotesOf h))).
Proof.
  unfold findOrphanedNotes, mbind, Async_bind, getFiles. simpl.
  fold (permanentNotesOf h).
  rewrite (scanOrphans_found (files h) (permanentNotesOf h) [] h eq_refl
             (permanentNotesOf_listed h)).
  reflexivity.
Qed.

(** X12: [findOrphanedNotes] always returns: the names of the first five
    permanent notes that hold fewer than two links, in vault order.  It
    reads every permanent note, also after the fifth orphan was found, and
    does nothing else. *)
Theorem X12_findOrphanedNotes_result (settings : ZettelkastenSettings) (h : Host) :
  findOrphanedNotes settings h
  = (Returned (take 5 (List.map name (orphansOf h))),
     withTrace h (trace h ++ readEvents (permanentNotesOf h)))
  /\ length (take 5 (List.map name (orphansOf h))) <= 5.
Proof.
  split; [apply findOrphanedNotes_run|].
  rewrite length_take. lia.
Qed.

Lemma readEvents_no_posts fs : List.filter isHttpPost (readEvents fs) = [].
Proof. induction fs as [|f r IH]; [reflexivity | exact IH]. Qed.

Lemma readEvents_no_writes fs : List.filter isVaultWrite (readEvents fs) = [].
Proof. induction fs as [|f r IH]; [reflexivity | exact IH]. Qed.

Lemma collect_readResult_ok fs h :
  (forall f, f ∈ fs -> is_Some (contentAt (path f) (files h))) ->
  collect readResult fs h = (Returned (List.map (textOf h) fs), h).
Proof.
  induction fs as [|f rest IH]; intros Hread; [reflexivity|].
  cbn [collect]. unfold mbind at 1. unfold Async_bind at 1. unfold readResult at 1.
  destruct (Hread f) as [c Hc]; [left|]. rewrite Hc.
  unfold mbind, Async_bind. rewrite IH by (intros g Hg; apply Hread; by right).
  cbn [List.map].
  replace (textOf h f) with c by (unfold textOf; rewrite Hc; reflexivity).
  reflexivity.
Qed.

Lemma identifyWritingTopics_run JSON_parse settings h :
  identifyWritingTopics JSON_parse settings h
  = match callLLM settings
            (writingTopicsPrompt (take 50 (List.map (textOf h) (permanentNotesOf h))))
            (withTrace h (trace h ++ readEvents (permanentNotesOf h))) with
    | (Returned response, h2) =>
        match JSON_parse response with
        | Some topics => (Returned topics, h2)
        | None => (Thrown "SyntaxError", h2)
        end
    | (Thrown msg, h2) => (Thrown msg, h2)
    end.
Proof.
  unfold identifyWritingTopics, mbind at 1, Async_bind at 1, getFiles.
  cbv beta iota zeta. fold (permanentNotesOf h).
  unfold mbind at 1, Async_bind at 1, readAll.
  unfold mbind at 1, Async_bind at 1. rewrite forEach_readStart.
  rewrite collect_readResult_ok by apply permanentNotesOf_listed.
  unfold mbind, Async_bind.
  change (List.map (textOf (withTrace h (trace h ++ readEvents (permanentNotesOf h))))
                   (permanentNotesOf h))
    with (List.map (textOf h) (permanentNotesOf h)).
  fold (writingTopicsPrompt (take 50 (List.map (textOf h) (permanentNotesOf h)))).
  destruct (callLLM _ _ _) as [[response|msg] h2]; [|reflexivity].
  destruct (JSON_parse response); reflexivity.
Qed.

(** X13: with an API key [identifyWritingTopics] posts one request, and
    its prompt holds the texts of the first 50 permanent notes, in vault
    order, and of no other note. *)
Theorem X13_writing_topics_request (JSON_parse : value -> option json)
    (settings : ZettelkastenSettings) (h : Host) :
  isEmpty (apiKey settings) = false ->
  exists r,
    httpPosts (snd (identifyWritingTopics JSON_parse settings h))
      = httpPosts h ++ [HttpPost r]
    /\ userMessage r
       = writingTopicsPrompt (take 50 (List.map (textOf h) (permanentNotesOf h))).
Proof.
  intros Hkey.
  exists (requestFor settings
            (writingTopicsPrompt (take 50 (List.map (textOf h) (permanentNotesOf h))))).
  split; [|reflexivity].
  rewrite identifyWritingTopics_run.
  set (h1 := withTrace h (trace h ++ readEvents (permanentNotesOf h))).
  set (prompt := writingTopicsPrompt _).
  pose proof (callLLM_posts settings prompt h1 Hkey) as Hposts.
  assert (Hh1 : httpPosts h1 = httpPosts h).
  { unfold h1. rewrite httpPosts_after.
    rewrite readEvents_no_posts. apply app_nil_r. }
  rewrite Hh1 in Hposts.
  destruct (callLLM settings prompt h1) as [[response|msg] h2]; cbn [snd] in *;
    [destruct (JSON_parse response)|]; exact Hposts.
Qed.

Lemma X13_writing_topics_request_witness :
  exists r,
    httpPosts (snd (identifyWritingTopics (fun _ => Some (JArr [])) keyed
                      (hostWith sampleVault None (JsonBody (chatShape "[]")))))
      = [HttpPost r]
    /\ userMessage r
       = writingTopicsPrompt ["notes link ideas"; "Atomic notes"; "a garden of atomic notes"].
Proof.
  exact (X13_writing_topics_request (fun _ => Some (JArr [])) keyed
           (hostWith sampleVault None (JsonBody (chatShape "[]"))) eq_refl).
Defined.

(** X14: without an API key [identifyWritingTopics] still reads every
    permanent note, then fails with "API key not configured"; it posts
    nothing. *)
Theorem X14_writing_topics_without_key (JSON_parse : value -> option json)
    (settings : ZettelkastenSettings) (h : Host) :
  apiKey settings = EmptyString ->
  identifyWritingTopics JSON_parse settings h
  = (Thrown "API key not configured",
     withTrace h (trace h ++ readEvents (permanentNotesOf h)))
  /\ httpPosts (snd (identifyWritingTopics JSON_parse settings h)) = httpPosts h.
Proof.
  intros Hkey. rewrite identifyWritingTopics_run.
  unfold callLLM. rewrite Hkey. simpl. split; [reflexivity|].
  rewrite httpPosts_after, readEvents_no_posts. apply app_nil_r.
Qed.

Lemma X14_writing_topics_without_key_witness :
  fst (identifyWritingTopics (fun _ => None) DEFAULT_SETTINGS
         (hostWith sampleVault None (JsonBody (JObj []))))
  = Thrown "API key not configured"
  /\ readsOf (trace (snd (identifyWritingTopics (fun _ => None) DEFAULT_SETTINGS
                            (hostWith sampleVault None (JsonBody (JObj []))))))
     = ["Permanent Notes/links.md"; "Permanent Notes/atomic.md";
        "Permanent Notes/garden.md"].
Proof.
  pose proof (proj1 (X14_writing_topics_without_key (fun _ => None) DEFAULT_SETTINGS
                       (hostWith sampleVault None (JsonBody (JObj []))) eq_refl)) as H.
  rewrite H. split; reflexivity.
Defined.

(** ** Operations that only read *)

Lemma vaultRead_untouched f h : untouched h (snd (vaultRead f h)).
Proof.
  rewrite vaultRead_run.
  destruct (contentAt (path f) (files h)); apply untouched_withTrace; reflexivity.
Qed.

Lemma emit_untouched e h :
  isVaultWrite e = false -> untouched h (snd (emit e h)).
Proof.
  intros He. apply (untouched_withTrace h [e]). simpl. rewrite He. reflexivity.
Qed.

Lemma findConnections_untouched settings h :
  untouched h (snd (findConnections settings h)).
Proof.
  unfold findConnections, mbind at 1, Async_bind at 1, getActiveFile.
  destruct (activeFile h) as [f|]; [|apply emit_untouched; reflexivity].
  unfold mbind at 1, Async_bind at 1.
  pose proof (vaultRead_untouched f h) as H1.
  destruct (vaultRead f h) as [[content|msg] h1]; [|exact H1].
  unfold mbind, Async_bind.
  pose proof (findSimilarNotes_untouched settings content h1) as H2.
  destruct (findSimilarNotes settings content h1) as [[cs|msg] h2].
  - eapply untouched_trans; [exact H1|]. eapply untouched_trans; [exact H2|].
    apply emit_untouched. reflexivity.
  - eapply untouched_trans; eassumption.
Qed.

Lemma processCurrentNoteToPermanent_untouched h :
  untouched h (snd (processCurrentNoteToPermanent h)).
Proof.
  unfold processCurrentNoteToPermanent, mbind at 1, Async_bind at 1, getActiveFile.
  destruct (activeFile h) as [f|]; [|apply emit_untouched; reflexivity].
  unfold mbind, Async_bind.
  pose proof (vaultRead_untouched f h) as H1.
  destruct (vaultRead f h) as [[content|msg] h1]; [|exact H1].
  eapply untouched_trans; [exact H1|].
  destruct (bool_decide _); apply emit_untouched; reflexivity.
Qed.

Lemma identifyWritingTopics_untouched JSON_parse settings h :
  untouched h (snd (identifyWritingTopics JSON_parse settings h)).
Proof.
  rewrite identifyWritingTopics_run.
  set (h1 := withTrace h (trace h ++ readEvents (permanentNotesOf h))).
  assert (H1 : untouched h h1) by (apply untouched_withTrace, readEvents_no_writes).
  pose proof (callLLM_untouched settings
                (writingTopicsPrompt (take 50 (List.map (textOf h) (permanentNotesOf h))))
                h1) as H2.
  destruct (callLLM _ _ h1) as [[response|msg] h2]; cbn [snd] in H2;
    [destruct (JSON_parse response)|]; eapply untouched_trans; eassumption.
Qed.

Example findOrphanedNotes_linkedVault :
  fst (findOrphanedNotes keyed (hostWith linkedVault None (JsonBody (JObj []))))
  = Returned ["b.md"; "c.md"].
Proof. vm_compute. reflexivity. Qed.

(** X11: Connect, the first step of Promote and the three scans only
    read: whatever happens, the files and folders of the vault are
    afterwards what they were and no write has been issued. *)
Theorem X11_read_only_operations (JSON_parse : value -> option json)
    (settings : ZettelkastenSettings) (content : string) (h : Host) :
  untouched h (snd (findSimilarNotes settings content h))
  /\ untouched h (snd (findConnections settings h))
  /\ untouched h (snd (findOrphanedNotes settings h))
  /\ untouched h (snd (identifyWritingTopics JSON_parse settings h))
  /\ untouched h (snd (processCurrentNoteToPermanent h)).
Proof.
  split; [|split; [|split; [|split]]].
  - apply findSimilarNotes_untouched.
  - apply findConnections_untouched.
  - rewrite findOrphanedNotes_run. apply untouched_withTrace, readEvents_no_writes.
  - apply identifyWritingTopics_untouched.
  - apply processCurrentNoteToPermanent_untouched.
Qed.

(** ** Counting links *)

Lemma linkBody_eq c r :
  linkBody (String c r)
  = if Ascii.eqb c "]"
       && match r with String c2 _ => Ascii.eqb c2 "]" | EmptyString => false end
    then Some 2
    else if Js.isLineTerminator c then None else option_map S (linkBody r).
Proof.
  destruct c as [[] [] [] [] [] [] [] []]; try reflexivity.
  destruct r as [|c2 r]; [reflexivity|].
  destruct c2 as [[] [] [] [] [] [] [] []]; reflexivity.
Qed.

Lemma linkAt_eq s :
  linkAt s
  = match s with
    | String c1 (String c2 r) =>
        if Ascii.eqb c1 "[" && Ascii.eqb c2 "["
        then option_map (fun n => 2 + n) (linkBody r) else None
    | _ => None
    end.
Proof.
  destruct s as [|c1 s]; [reflexivity|].
  destruct c1 as [[] [] [] [] [] [] [] []]; try (destruct s; reflexivity).
  destruct s as [|c2 r]; [reflexivity|].
  destruct c2 as [[] [] [] [] [] [] [] []]; reflexivity.
Qed.

Lemma lineTerminator_not_bracket c :
  Js.isLineTerminator c = true -> Ascii.eqb c "]" = false /\ Ascii.eqb c "[" = false.
Proof. destruct c as [[] [] [] [] [] [] [] []]; simpl; intros H; try discriminate; auto. Qed.

Lemma linkBody_line x c b :
  Js.isLineTerminator c = true ->
  linkBody (x +:+ String c b) = linkBody x.
Proof.
  intros Hc. destruct (lineTerminator_not_bracket c Hc) as [Hr _].
  induction x as [|c1 x IH].
  - change (EmptyString +:+ String c b) with (String c b).
    rewrite linkBody_eq, Hr, Hc. reflexivity.
  - rewrite append_cons, !linkBody_eq, IH.
    destruct x as [|c2 x]; [|reflexivity].
    change (EmptyString +:+ String c b) with (String c b). cbv iota.
    rewrite Hr. reflexivity.
Qed.

Lemma linkAt_line x c b :
  Js.isLineTerminator c = true ->
  linkAt (x +:+ String c b) = linkAt x.
Proof.
  intros Hc. destruct (lineTerminator_not_bracket c Hc) as [_ Hl].
  rewrite !linkAt_eq.
  destruct x as [|c1 [|c2 x]].
  - change (EmptyString +:+ String c b) with (String c b).
    destruct b; [reflexivity|]. cbv iota beta. rewrite Hl. reflexivity.
  - change (String c1 EmptyString +:+ String c b) with (String c1 (String c b)).
    cbv iota beta. rewrite Hl, andb_false_r. reflexivity.
  - rewrite !append_cons, linkBody_line by exact Hc. reflexivity.
Qed.

Lemma linkBody_length x n : linkBody x = Some n -> 2 <= n <= String.length x.
Proof.
  revert n. induction x as [|c x IH]; intros n; [discriminate|].
  rewrite linkBody_eq.
  destruct (Ascii.eqb c "]" && _) eqn:Hb.
  - intros H; injection H as <-.
    destruct x; [rewrite andb_false_r in Hb; discriminate|]. simpl. lia.
  - destruct (Js.isLineTerminator c); [discriminate|].
    destruct (linkBody x) as [m|]; [|discriminate].
    intros H; injection H as <-. specialize (IH m eq_refl). simpl. lia.
Qed.

Lemma linkAt_length s len : linkAt s = Some len -> 4 <= len <= String.length s.
Proof.
  rewrite linkAt_eq. destruct s as [|c1 [|c2 r]]; try discriminate.
  destruct (_ && _); [|discriminate].
  destruct (linkBody r) as [n|] eqn:Hn; [|discriminate].
  intros H; injection H as <-. apply linkBody_length in Hn. simpl. lia.
Qed.

Lemma countLinks_from_line x c b :
  Js.isLineTerminator c = true ->
  forall k, k <= String.length x ->
  countLinks_from k (x +:+ String c b) = countLinks_from k x + countLinks b.
Proof.
  intros Hc. induction x as [|c1 x IH]; intros k Hk.
  - change (EmptyString +:+ String c b) with (String c b).
    simpl in Hk. assert (k = 0) as -> by lia.
    pose proof (linkAt_line EmptyString c b Hc) as H0.
    change (EmptyString +:+ String c b) with (String c b) in H0.
    cbn [countLinks_from]. rewrite H0. reflexivity.
  - rewrite append_cons. cbn [countLinks_from].
    destruct k as [|k]; [|apply IH; simpl in Hk; lia].
    rewrite <- append_cons, (linkAt_line (String c1 x) c b Hc).
    destruct (linkAt (String c1 x)) as [len|] eqn:Hlen.
    + apply linkAt_length in Hlen. simpl in Hlen.
      rewrite IH by lia. reflexivity.
    + apply IH. lia.
Qed.


(** X15: a link never spans a line break, so the number of links of a
    text is the sum of the numbers of its two parts around any line
    feed or carriage return. *)
Theorem X15_countLinks_lines (a b : string) (c : ascii) :
  Js.isLineTerminator c = true ->
  countLinks (a +:+ String c b) = countLinks a + countLinks b.
Proof. intros Hc. apply countLinks_from_line; [exact Hc | lia]. Qed.

Lemma X15_countLinks_lines_witness :
  countLinks ("An open [[ bracket" +:+ String Js.LF "]] and [[a]].")
  = countLinks "An open [[ bracket" + countLinks "]] and [[a]].".
Proof. exact (X15_countLinks_lines "An open [[ bracket" "]] and [[a]]." Js.LF eq_refl). Defined.

(** ** The front-matter extractor *)

Lemma startsWith_before_line p : forall a X,
  Js.includesChar Js.LF p = false ->
  Js.startsWith a p = false ->
  Js.startsWith (a +:+ String Js.LF X) p = false.
Proof.
  induction p as [|c p IH]; intros a X Hp Ha.
  - destruct a; discriminate.
  - simpl in Hp. apply orb_false_iff in Hp as [Hc Hp].
    destruct a as [|c1 a].
    + change (EmptyString +:+ String Js.LF X) with (String Js.LF X).
      cbn [Js.startsWith]. rewrite Ascii.eqb_sym, Hc. reflexivity.
    + rewrite append_cons. cbn [Js.startsWith] in *.
      destruct (Ascii.eqb c1 c); [|reflexivity]. simpl in *. apply IH; assumption.
Qed.

Lemma startsWith_append p rest : Js.startsWith (p +:+ rest) p = true.
Proof.
  induction p as [|c p IH]; [destruct rest; reflexivity|].
  rewrite append_cons. cbn [Js.startsWith]. rewrite Ascii.eqb_refl. exact IH.
Qed.

Lemma concat_cons (sep x : string) (l : list string) :
  l <> [] -> String.concat sep (x :: l) = x +:+ sep +:+ String.concat sep l.
Proof. destruct l; [congruence | reflexivity]. Qed.

(** The block of a header made of lines. *)
Lemma lazyUntil_lines ls : forall l1 rest,
  Forall (fun l => singleLine l = true) (l1 :: ls) ->
  Forall (fun l => Js.startsWith l "---" = false) ls ->
  lazyUntil fence (Js.join nl (l1 :: ls) +:+ String Js.LF ("---" +:+ rest))
  = Some (Js.join nl (l1 :: ls)).
Proof.
  induction ls as [|l2 ls IH]; intros l1 rest Hsingle Hdash.
  - apply Forall_cons in Hsingle as [H1 _].
    change (Js.join nl [l1]) with l1.
    rewrite (lazyUntil_line l1) by exact H1.
    rewrite startsWith_append. reflexivity.
  - apply Forall_cons in Hsingle as [H1 Hsingle].
    pose proof Hsingle as Hs2. apply Forall_cons in Hs2 as [H2 _].
    apply Forall_cons in Hdash as [Hd2 Hdash].
    unfold Js.join. rewrite concat_cons by discriminate. fold (Js.join nl (l2 :: ls)).
    rewrite !append_assoc_string.
    change (nl +:+ Js.join nl (l2 :: ls) +:+ String Js.LF ("---" +:+ rest))
      with (String Js.LF (Js.join nl (l2 :: ls) +:+ String Js.LF ("---" +:+ rest))).
    rewrite (lazyUntil_line l1) by exact H1.
    rewrite (IH l2 rest Hsingle Hdash).
    assert (Hstart : Js.startsWith
                       (Js.join nl (l2 :: ls) +:+ String Js.LF ("---" +:+ rest)) "---"
                     = false).
    { destruct ls as [|l3 ls].
      - change (Js.join nl [l2]) with l2. apply startsWith_before_line; auto.
      - unfold Js.join. rewrite concat_cons by discriminate.
        rewrite !append_assoc_string.
        change (nl +:+ String.concat nl (l3 :: ls) +:+ String Js.LF ("---" +:+ rest))
          with (String Js.LF (String.concat nl (l3 :: ls)
                              +:+ String Js.LF ("---" +:+ rest))).
        apply startsWith_before_line; auto. }
    rewrite Hstart. reflexivity.
Qed.

Lemma splitChar_from_lines ls : forall l1 cur,
  Forall (fun l => singleLine l = true) (l1 :: ls) ->
  Js.splitChar_from Js.LF cur (Js.join nl (l1 :: ls)) = (cur +:+ l1) :: ls.
Proof.
  induction ls as [|l2 ls IH]; intros l1 cur Hsingle;
    apply Forall_cons in Hsingle as [H1 Hsingle];
    apply negb_true_iff in H1.
  - change (Js.join nl [l1]) with l1. apply splitChar_from_last, H1.
  - unfold Js.join. rewrite concat_cons by discriminate. fold (Js.join nl (l2 :: ls)).
    change (nl +:+ Js.join nl (l2 :: ls)) with (String Js.LF (Js.join nl (l2 :: ls))).
    rewrite splitChar_from_line by exact H1.
    rewrite (IH l2 EmptyString Hsingle). reflexivity.
Qed.

Lemma splitChar_from_first sep s : forall cur,
  Js.includesChar sep s = true ->
  Js.splitChar_from sep cur s
  = (cur +:+ beforeChar sep s) :: Js.splitChar_from sep EmptyString (afterChar sep s).
Proof.
  induction s as [|c r IH]; intros cur Hs; [discriminate|].
  simpl in *. destruct (Ascii.eqb c sep).
  - rewrite append_empty_r. reflexivity.
  - simpl in Hs. rewrite (IH _ Hs), append_assoc_string. reflexivity.
Qed.

Lemma splitChar_from_nonempty sep s cur : Js.splitChar_from sep cur s <> [].
Proof.
  revert cur. induction s as [|c r IH]; intros cur; simpl; [discriminate|].
  destruct (Ascii.eqb c sep); [discriminate | apply IH].
Qed.

(** Joining the pieces of a split gives the text back. *)
Lemma join_splitChar_from sep s : forall cur,
  Js.join (String sep EmptyString) (Js.splitChar_from sep cur s) = cur +:+ s.
Proof.
  induction s as [|c r IH]; intros cur.
  - rewrite append_empty_r. reflexivity.
  - simpl. destruct (Ascii.eqb c sep) eqn:Hc.
    + apply Ascii.eqb_eq in Hc as ->. unfold Js.join in *.
      rewrite concat_cons by apply splitChar_from_nonempty.
      rewrite (IH EmptyString). reflexivity.
    + rewrite IH, append_assoc_string. reflexivity.
Qed.

Lemma entryOf_keyValue line :
  Js.includesChar ":" line = true -> entryOf line = Some (keyValue line).
Proof.
  intros Hline. unfold entryOf, Js.splitChar.
  rewrite (splitChar_from_first ":" line EmptyString Hline).
  rewrite (join_splitChar_from ":" (afterChar ":" line) EmptyString).
  reflexivity.
Qed.

Lemma entriesOf_keyValue lines :
  entriesOf (List.filter (Js.includesChar ":") lines)
  = Some (List.map keyValue (List.filter (Js.includesChar ":") lines)).
Proof.
  induction lines as [|l ls IH]; [reflexivity|].
  simpl. destruct (Js.includesChar ":" l) eqn:Hl; [|exact IH].
  simpl. rewrite (entryOf_keyValue l Hl), IH. reflexivity.
Qed.

Lemma extractFrontmatter_lines l1 ls rest :
  Forall (fun l => singleLine l = true) (l1 :: ls) ->
  Forall (fun l => Js.startsWith l "---" = false) ls ->
  extractFrontmatter
    ("---" +:+ nl +:+ Js.join nl (l1 :: ls) +:+ nl +:+ "---" +:+ rest)
  = fromEntries (List.map keyValue (List.filter (Js.includesChar ":") (l1 :: ls))).
Proof.
  intros Hsingle Hdash. unfold extractFrontmatter.
  unfold matchFrontmatter.
  change ("---" +:+ nl +:+ Js.join nl (l1 :: ls) +:+ nl +:+ "---" +:+ rest)
    with (("---" +:+ nl) +:+ Js.join nl (l1 :: ls) +:+ String Js.LF ("---" +:+ rest)).
  rewrite startsWith_append.
  change (Js.dropChars 4 _)
    with (Js.join nl (l1 :: ls) +:+ String Js.LF ("---" +:+ rest)).
  change (nl +:+ "---") with fence.
  rewrite (lazyUntil_lines ls l1 rest Hsingle Hdash).
  unfold Js.splitChar. rewrite (splitChar_from_lines ls l1 EmptyString Hsingle).
  change (EmptyString +:+ l1) with l1.
  rewrite entriesOf_keyValue. reflexivity.
Qed.

(** X16: on a header made of lines (none holding a line feed, none after
    the first beginning with three dashes) the extractor returns the
    entries of the lines that hold a colon: each cut at its first colon,
    key and value trimmed, a later key replacing an earlier one.  Lines
    without a colon are skipped, and the text after the closing fence
    plays no part. *)
Theorem X16_extractFrontmatter_lines (l1 : string) (ls : list string) (rest : string) :
  Forall (fun l => singleLine l = true) (l1 :: ls) ->
  Forall (fun l => Js.startsWith l "---" = false) ls ->
  extractFrontmatter
    ("---" +:+ nl +:+ Js.join nl (l1 :: ls) +:+ nl +:+ "---" +:+ rest)
  = fromEntries (List.map keyValue (List.filter (Js.includesChar ":") (l1 :: ls))).
Proof. apply extractFrontmatter_lines. Qed.

Lemma X16_extractFrontmatter_lines_witness :
  extractFrontmatter
    ("---" +:+ nl +:+ Js.join nl ["title: Notes: a primer"; "draft"; "type: outline";
                                  " type :  fleeting "]
     +:+ nl +:+ "---" +:+ nl +:+ "type: permanent" +:+ nl)
  = fromEntries [("title", "Notes: a primer"); ("type", "outline"); ("type", "fleeting")].
Proof.
  refine (X16_extractFrontmatter_lines "title: Notes: a primer"
            ["draft"; "type: outline"; " type :  fleeting "]
            (nl +:+ "type: permanent" +:+ nl) _ _);
    repeat constructor.
Defined.

Lemma startsWith_true p : forall s,
  Js.startsWith s p = true -> exists rest, s = p +:+ rest.
Proof.
  induction p as [|c p IH]; intros s Hs; [exists s; reflexivity|].
  destruct s as [|c1 s]; [discriminate|].
  cbn [Js.startsWith] in Hs. apply andb_true_iff in Hs as [Hc Hs].
  apply Ascii.eqb_eq in Hc as ->. destruct (IH s Hs) as [rest ->].
  exists rest. reflexivity.
Qed.

Lemma lazyUntil_Some stop s : forall a,
  lazyUntil stop s = Some a -> exists rest, s = a +:+ stop +:+ rest.
Proof.
  induction s as [|c r IH]; intros a; rewrite lazyUntil_eq.
  - destruct (Js.startsWith EmptyString stop) eqn:Hs; [|discriminate].
    intros H; injection H as <-. apply startsWith_true in Hs. exact Hs.
  - destruct (Js.startsWith (String c r) stop) eqn:Hs.
    + intros H; injection H as <-. apply startsWith_true in Hs. exact Hs.
    + destruct (lazyUntil stop r) as [a'|]; [|discriminate].
      intros H; injection H as <-. destruct (IH a' eq_refl) as [rest ->].
      exists rest. reflexivity.
Qed.

(** X17: the extractor returns a mapping that is not empty only for a
    document that begins with the line of three dashes and holds, later
    on, a line that begins with three dashes: a document without a
    header, with a header that does not open the document, or with a
    header that is never closed, gives the empty mapping. *)
Theorem X17_extractFrontmatter_needs_block (content : string) :
  extractFrontmatter content <> ∅ ->
  exists block rest, content = "---" +:+ nl +:+ block +:+ nl +:+ "---" +:+ rest.
Proof.
  unfold extractFrontmatter, matchFrontmatter. intros Hne.
  destruct (Js.startsWith content ("---" +:+ nl)) eqn:Hs; [|congruence].
  apply startsWith_true in Hs as [body ->].
  change (Js.dropChars 4 (("---" +:+ nl) +:+ body)) with body in Hne.
  destruct (lazyUntil (nl +:+ "---") body) as [block|] eqn:Hb; [|congruence].
  apply lazyUntil_Some in Hb as [rest ->].
  exists block, rest. reflexivity.
Qed.

Lemma X17_extractFrontmatter_needs_block_witness :
  exists block rest, permanentDoc = "---" +:+ nl +:+ block +:+ nl +:+ "---" +:+ rest.
Proof.
  refine (X17_extractFrontmatter_needs_block permanentDoc _).
  intros H. apply (f_equal (fun m => m !! "type")) in H. vm_compute in H. discriminate.
Defined.

(** X18: the header that Capture writes gives the time of creation back:
    [created] maps to the timestamp, colons included (trimmed, as every
    value is). *)
Theorem X18_capture_created (iso timestamp content : string) :
  singleLine iso = true ->
  extractFrontmatter (fleetingNoteContent iso timestamp content) !! "created"
  = Some (Js.trim iso).
Proof.
  intros Hiso. unfold extractFrontmatter.
  rewrite (matchFrontmatter_template _ _ _ Hiso), (lines_template _ Hiso).
  rewrite (entriesOf_keyValue ["type: fleeting"; "created: " +:+ iso; "processed: false"]).
  unfold fromEntries. simpl.
  rewrite lookup_insert_ne by discriminate. apply lookup_insert_eq.
Qed.

Lemma X18_capture_created_witness :
  extractFrontmatter
    (fleetingNoteContent "2024-05-06T07:08:09.010Z" "2024-05-06T07-08-09" "idea about X")
    !! "created" = Some "2024-05-06T07:08:09.010Z".
Proof.
  exact (X18_capture_created "2024-05-06T07:08:09.010Z" "2024-05-06T07-08-09"
           "idea about X" eq_refl).
Defined.

(** ** Creating notes *)

Lemma createNote_fresh p content h :
  p ∉ pathsOf h ->
  exists before,
    createNote p content h
    = (Returned {| path := p; name := fileNameOf p |},
       {| files := files h ++ [({| path := p; name := fileNameOf p |}, content)];
          folders := folders h ++ (if bool_decide (folderPathOf p ∈ folders h)
                                      || bool_decide (folderPathOf p ∈ pathsOf h)
                                   then [] else [folderPathOf p]);
          activeFile := activeFile h; ticks := ticks h; clock := clock h;
          remote := remote h;
          trace := trace h ++ before ++ [VaultCreate p content] |})
    /\ before = (if bool_decide (folderPathOf p ∈ folders h)
                    || bool_decide (folderPathOf p ∈ pathsOf h)
                 then [] else [VaultCreateFolder (folderPathOf p)]).
Proof.
  intros Hfresh. eexists. split; [|reflexivity].
  unfold createNote, mbind, Async_bind, adapterExists. fold (pathsOf h).
  destruct (bool_decide (folderPathOf p ∈ folders h)) eqn:Hfolder; simpl.
  - unfold vaultCreate. simpl. fold (pathsOf h).
    rewrite bool_decide_eq_false_2 by exact Hfresh. rewrite app_nil_r. reflexivity.
  - destruct (bool_decide (folderPathOf p ∈ pathsOf h)) eqn:Hfile; simpl.
    + unfold vaultCreate. simpl. fold (pathsOf h).
      rewrite bool_decide_eq_false_2 by exact Hfresh. rewrite app_nil_r. reflexivity.
    + unfold createFolder. rewrite Hfolder. unfold vaultCreate. simpl. fold (pathsOf h).
      rewrite bool_decide_eq_false_2 by exact Hfresh.
      rewrite <- app_assoc. reflexivity.
Qed.

Lemma createNote_taken p content h :
  p ∈ pathsOf h ->
  fst (createNote p content h) = Thrown "File already exists."
  /\ files (snd (createNote p content h)) = files h.
Proof.
  intros Htaken.
  unfold createNote, mbind, Async_bind, adapterExists. fold (pathsOf h).
  destruct (bool_decide (folderPathOf p ∈ folders h)) eqn:Hfolder; simpl.
  - unfold vaultCreate. simpl. fold (pathsOf h).
    rewrite bool_decide_eq_true_2 by exact Htaken. split; reflexivity.
  - destruct (bool_decide (folderPathOf p ∈ pathsOf h)) eqn:Hfile; simpl.
    + unfold vaultCreate. simpl. fold (pathsOf h).
      rewrite bool_decide_eq_true_2 by exact Htaken. split; reflexivity.
    + unfold createFolder. rewrite Hfolder. unfold vaultCreate. simpl. fold (pathsOf h).
      rewrite bool_decide_eq_true_2 by exact Htaken. split; reflexivity.
Qed.

(** X19: [createNote] on a path inside a folder that no file has always
    succeeds: the vault gains one file, with the content given, after the
    files it had; the folder of the path is created first when neither a
    folder nor a file is known under that name, and only then. *)
Theorem X19_createNote_fresh (p content : string) (h : Host) :
  folderPathOf p <> EmptyString ->
  p ∉ pathsOf h ->
  fst (createNote p content h) = Returned {| path := p; name := fileNameOf p |}
  /\ files (snd (createNote p content h))
     = files h ++ [({| path := p; name := fileNameOf p |}, content)]
  /\ vaultWrites (snd (createNote p content h))
     = vaultWrites h
       ++ (if bool_decide (folderPathOf p ∈ folders h)
              || bool_decide (folderPathOf p ∈ pathsOf h)
           then [] else [VaultCreateFolder (folderPathOf p)])
       ++ [VaultCreate p content].
Proof.
  intros _ Hfresh. destruct (createNote_fresh p content h Hfresh) as (before & -> & ->).
  repeat split. unfold vaultWrites. simpl. rewrite List.filter_app. f_equal.
  destruct (_ || _); reflexivity.
Qed.

Lemma X19_createNote_fresh_witness :
  vaultWrites (snd (createNote "Writing Projects/Outline-notes-2024-05-06.md" "# Outline"
                      (hostWith sampleVault None (JsonBody (JObj [])))))
  = [VaultCreateFolder "Writing Projects";
     VaultCreate "Writing Projects/Outline-notes-2024-05-06.md" "# Outline"].
Proof.
  refine (proj2 (proj2 (X19_createNote_fresh
            "Writing Projects/Outline-notes-2024-05-06.md" "# Outline"
            (hostWith sampleVault None (JsonBody (JObj []))) _ _))).
  - vm_compute. discriminate.
  - refine (bool_decide_unpack _ _). vm_compute. exact I.
Defined.

(** X20: [createNote] on the path of an existing file fails with "File
    already exists." and leaves every file as it was: nothing is
    overwritten. *)
Theorem X20_createNote_taken (p content : string) (h : Host) :
  p ∈ pathsOf h ->
  fst (createNote p content h) = Thrown "File already exists."
  /\ files (snd (createNote p content h)) = files h.
Proof. apply createNote_taken. Qed.

Lemma X20_createNote_taken_witness :
  fst (createNote "Permanent Notes/atomic.md" "overwritten"
         (hostWith sampleVault None (JsonBody (JObj []))))
  = Thrown "File already exists.".
Proof.
  refine (proj1 (X20_createNote_taken "Permanent Notes/atomic.md" "overwritten"
                   (hostWith sampleVault None (JsonBody (JObj []))) _)).
  refine (bool_decide_unpack _ _). vm_compute. exact I.
Defined.

(** ** The Capture workflow *)

Lemma createFleetingNote_run settings answer h :
  isEmpty answer = false ->
  createFleetingNote settings answer h
  = match createNote (fleetingPath settings h)
            (fleetingNoteContent (clock h (S (ticks h)))
               (Js.sliceTo 19 (dashed (clock h (ticks h)))) answer)
            {| files := files h; folders := folders h; activeFile := activeFile h;
               ticks := S (S (ticks h)); clock := clock h; remote := remote h;
               trace := trace h ++ [OpenModal (InputModal "Enter fleeting note content:")] |}
    with
    | (Returned _, h') => notice "Fleeting note created!" h'
    | (Thrown msg, h') => (Thrown msg, h')
    end.
Proof.
  intros Hanswer.
  unfold createFleetingNote, mbind at 1, Async_bind at 1, openModal, emit.
  rewrite Hanswer.
  unfold generateTimestamp, mbind at 1, Async_bind at 1.
  unfold mbind at 1, Async_bind at 1, nowISO at 1.
  unfold mret, Async_ret.
  unfold mbind at 1, Async_bind at 1, nowISO.
  unfold mbind, Async_bind. cbn [ticks clock files folders activeFile remote trace].
  reflexivity.
Qed.

Lemma occursIn_template iso timestamp content :
  occursIn content (fleetingNoteContent iso timestamp content).
Proof.
  exists ("---" +:+ nl +:+ "type: fleeting" +:+ nl +:+ "created: " +:+ iso +:+ nl
          +:+ "processed: false" +:+ nl +:+ "---" +:+ nl +:+ nl
          +:+ "# Fleeting Note - " +:+ timestamp +:+ nl +:+ nl),
         (nl +:+ nl +:+ "## Processing Notes" +:+ nl
          +:+ "<!-- AI will add processing suggestions here -->" +:+ nl).
  unfold fleetingNoteContent. rewrite !append_assoc_string. reflexivity.
Qed.

(** X21: Capture with a text that is not empty, when no file has the
    path [<fleeting folder>/Fleeting-<timestamp>.md] yet, returns after
    adding exactly that file; its content holds the text as typed, and the
    last thing shown is the notice "Fleeting note created!". *)
Theorem X21_capture_creates (settings : ZettelkastenSettings) (answer : string) (h : Host) :
  isEmpty answer = false ->
  fleetingPath settings h ∉ pathsOf h ->
  exists c,
    fst (createFleetingNote settings answer h) = Returned tt
    /\ files (snd (createFleetingNote settings answer h))
       = files h ++ [({| path := fleetingPath settings h;
                         name := fileNameOf (fleetingPath settings h) |}, c)]
    /\ occursIn answer c
    /\ last (trace (snd (createFleetingNote settings answer h)))
       = Some (ShowNotice "Fleeting note created!").
Proof.
  intros Hanswer Hfresh.
  exists (fleetingNoteContent (clock h (S (ticks h)))
            (Js.sliceTo 19 (dashed (clock h (ticks h)))) answer).
  rewrite (createFleetingNote_run settings answer h Hanswer).
  match goal with |- context [createNote ?p ?c ?h0] =>
    destruct (createNote_fresh p c h0 Hfresh) as (before & -> & _)
  end.
  cbn [fst snd files trace notice emit].
  repeat split.
  - apply occursIn_template.
  - apply last_snoc.
Qed.

Lemma X21_capture_creates_witness :
  exists c,
    files (snd (createFleetingNote keyed "idea about X"
                  (hostWith sampleVault None (JsonBody (JObj [])))))
    = sampleVault ++ [(note "Fleeting Notes/Fleeting-2024-05-06T07-08-09.md"
                            "Fleeting-2024-05-06T07-08-09.md", c)]
    /\ occursIn "idea about X" c.
Proof.
  destruct (X21_capture_creates keyed "idea about X"
              (hostWith sampleVault None (JsonBody (JObj []))) eq_refl)
    as (c & _ & Hfiles & Hoccurs & _).
  - refine (bool_decide_unpack _ _). vm_compute. exact I.
  - exists c. split; [exact Hfiles | exact Hoccurs].
Defined.

(** X22: two captures whose clock readings give the same timestamp
    (the same second) collide: the second one fails with "File already
    exists.", and the vault keeps the note of the first one only. *)
Theorem X22_capture_same_second (settings : ZettelkastenSettings) (first second : string)
    (h : Host) :
  isEmpty first = false ->
  isEmpty second = false ->
  fleetingPath settings h ∉ pathsOf h ->
  Js.sliceTo 19 (dashed (clock h (S (S (ticks h)))))
    = Js.sliceTo 19 (dashed (clock h (ticks h))) ->
  fst (createFleetingNote settings second (snd (createFleetingNote settings first h)))
    = Thrown "File already exists."
  /\ files (snd (createFleetingNote settings second
                   (snd (createFleetingNote settings first h))))
     = files (snd (createFleetingNote settings first h)).
Proof.
  intros Hfirst Hsecond Hfresh Hsame.
  rewrite (createFleetingNote_run settings first h Hfirst).
  match goal with |- context [createNote ?p ?c ?h0] =>
    destruct (createNote_fresh p c h0 Hfresh) as (before & -> & _)
  end.
  cbn [snd notice emit files folders activeFile ticks clock remote trace].
  match goal with |- context [createFleetingNote settings second ?after] =>
    set (h1 := after)
  end.
  assert (Htaken : fleetingPath settings h1 ∈ pathsOf h1).
  { unfold fleetingPath, pathsOf, h1. cbn [files ticks clock].
    rewrite Hsame, List.map_app. apply elem_of_app. right. left. }
  rewrite (createFleetingNote_run settings second h1 Hsecond).
  match goal with |- context [createNote ?p ?c ?h0] =>
    destruct (createNote_taken p c h0 Htaken) as [Hthrown Hfiles];
    destruct (createNote p c h0) as [[f|msg] h2]
  end; cbn [fst snd] in *; [discriminate|].
  injection Hthrown as ->. split; [reflexivity | exact Hfiles].
Qed.

Lemma X22_capture_same_second_witness :
  fst (createFleetingNote keyed "second thought"
         (snd (createFleetingNote keyed "first thought"
                 (hostWith [] None (JsonBody (JObj []))))))
  = Thrown "File already exists.".
Proof.
  refine (proj1 (X22_capture_same_second keyed "first thought" "second thought"
                   (hostWith [] None (JsonBody (JObj []))) eq_refl eq_refl _ eq_refl)).
  apply not_elem_of_nil.
Defined.

(** X23: Capture never changes or removes a document and adds at most
    one; on an empty input it adds none, writes nothing and shows no
    notice: only the input dialog has been opened. *)
Theorem X23_capture_keeps_documents (settings : ZettelkastenSettings) (answer : string)
    (h : Host) :
  files h `prefix_of` files (snd (createFleetingNote settings answer h))
  /\ length (files (snd (createFleetingNote settings answer h))) <= S (length (files h))
  /\ (isEmpty answer = true ->
      createFleetingNote settings answer h
      = (Returned tt,
         withTrace h (trace h ++ [OpenModal (InputModal "Enter fleeting note content:")]))).
Proof.
  split; [|split].
  - destruct (createFleetingNote_files settings answer h) as [->|[f ->]].
    + reflexivity.
    + apply prefix_app_r. reflexivity.
  - destruct (createFleetingNote_files settings answer h) as [->|[f ->]].
    + lia.
    + rewrite length_app. simpl. lia.
  - intros Hempty. unfold createFleetingNote, mbind, Async_bind, openModal, emit.
    rewrite Hempty. reflexivity.
Qed.

(** ** Timestamps *)

Lemma includesChar_sliceTo c n : forall s,
  Js.includesChar c s = false -> Js.includesChar c (Js.sliceTo n s) = false.
Proof.
  unfold Js.sliceTo. induction n as [|n IH]; intros s Hs.
  - destruct s; reflexivity.
  - destruct s as [|c1 s]; [reflexivity|].
    simpl in *. apply orb_false_iff in Hs as [Hc Hs].
    rewrite Hc. apply IH, Hs.
Qed.

Lemma length_sliceTo n : forall s,
  String.length (Js.sliceTo n s) = Nat.min n (String.length s).
Proof.
  unfold Js.sliceTo. induction n as [|n IH]; intros s.
  - destruct s; reflexivity.
  - destruct s as [|c1 s]; [reflexivity|]. simpl. rewrite IH. reflexivity.
Qed.

Lemma dashed_clean s :
  Js.includesChar ":" (dashed s) = false /\ Js.includesChar "." (dashed s) = false.
Proof.
  induction s as [|c s [IH1 IH2]]; [split; reflexivity|].
  simpl. rewrite IH1, IH2.
  destruct (Ascii.eqb c ":") eqn:H1; [split; reflexivity|].
  destruct (Ascii.eqb c ".") eqn:H2; [split; reflexivity|].
  simpl. rewrite H1, H2. split; reflexivity.
Qed.

Lemma length_dashed s : String.length (dashed s) = String.length s.
Proof. induction s as [|c s IH]; [reflexivity|]. simpl. rewrite IH. reflexivity. Qed.

(** X24: [generateTimestamp] returns a text of at most 19 characters
    that holds neither a colon nor a full stop, so that it can stand in a
    file name; it has exactly 19 characters when the clock reading has
    that many. *)
Theorem X24_generateTimestamp_shape (h : Host) :
  exists ts,
    fst (generateTimestamp h) = Returned ts
    /\ String.length ts = Nat.min 19 (String.length (clock h (ticks h)))
    /\ Js.includesChar ":" ts = false
    /\ Js.includesChar "." ts = false.
Proof.
  eexists. split; [reflexivity|].
  destruct (dashed_clean (clock h (ticks h))) as [H1 H2].
  rewrite length_sliceTo, length_dashed.
  repeat split; apply includesChar_sliceTo; assumption.
Qed.

(** ** The Promote workflow *)

Lemma promote_fleeting h f content :
  activeFile h = Some f ->
  contentAt (path f) (files h) = Some content ->
  extractFrontmatter content !! "type" = Some "fleeting" ->
  processCurrentNoteToPermanent h
  = (Returned tt,
     withTrace h (trace h ++ [VaultRead (path f);
                              OpenModal (ProcessingModal f content)])).
Proof.
  intros Hactive Hread Htype.
  unfold processCurrentNoteToPermanent, mbind at 1, Async_bind at 1, getActiveFile.
  rewrite Hactive. unfold mbind, Async_bind. rewrite vaultRead_run, Hread.
  rewrite bool_decide_eq_true_2 by exact Htype.
  unfold openModal, emit, withTrace. simpl. rewrite <- app_assoc. reflexivity.
Qed.

(** X25: when the header of the active document gives [type] the value
    [fleeting], Promote reads the document and opens the processing dialog
    on it and on the text read; it shows no notice.  Without an active
    document it shows "No active file" and reads nothing. *)
Theorem X25_promote_opens_dialog (h : Host) :
  (forall f content,
     activeFile h = Some f ->
     contentAt (path f) (files h) = Some content ->
     extractFrontmatter content !! "type" = Some "fleeting" ->
     processCurrentNoteToPermanent h
     = (Returned tt,
        withTrace h (trace h ++ [VaultRead (path f);
                                 OpenModal (ProcessingModal f content)])))
  /\ (activeFile h = None ->
      processCurrentNoteToPermanent h
      = (Returned tt, withTrace h (trace h ++ [ShowNotice "No active file"]))).
Proof.
  split.
  - apply promote_fleeting.
  - intros Hnone.
    unfold processCurrentNoteToPermanent, mbind, Async_bind, getActiveFile.
    rewrite Hnone. reflexivity.
Qed.

Lemma X25_promote_opens_dialog_witness :
  processCurrentNoteToPermanent
    (hostWith [(note "Fleeting Notes/idea.md" "idea.md", fleetingDoc)]
              (Some (note "Fleeting Notes/idea.md" "idea.md")) (JsonBody (JObj [])))
  = (Returned tt,
     withTrace
       (hostWith [(note "Fleeting Notes/idea.md" "idea.md", fleetingDoc)]
                 (Some (note "Fleeting Notes/idea.md" "idea.md")) (JsonBody (JObj [])))
       [VaultRead "Fleeting Notes/idea.md";
        OpenModal (ProcessingModal (note "Fleeting Notes/idea.md" "idea.md") fleetingDoc)]).
Proof.
  refine (proj1 (X25_promote_opens_dialog
                   (hostWith [(note "Fleeting Notes/idea.md" "idea.md", fleetingDoc)]
                             (Some (note "Fleeting Notes/idea.md" "idea.md"))
                             (JsonBody (JObj []))))
                (note "Fleeting Notes/idea.md" "idea.md") fleetingDoc eq_refl eq_refl _).
  vm_compute. reflexivity.
Defined.

Lemma contentAt_added p content (fs : list (TFile * string)) n :
  p ∉ List.map (fun fc => path (fst fc)) fs ->
  contentAt p (fs ++ [({| path := p; name := n |}, content)]) = Some content.
Proof.
  induction fs as [|[g c] fs IH]; intros Hfresh; simpl.
  - rewrite String.eqb_refl. reflexivity.
  - simpl in Hfresh. apply not_elem_of_cons in Hfresh as [Hne Hfresh].
    destruct (String.eqb (path g) p) eqn:Heq.
    + apply String.eqb_eq in Heq. congruence.
    + apply IH, Hfresh.
Qed.

(** X26: a note that Capture has created is accepted by Promote: when
    the user opens the new note and starts Promote, the processing dialog
    opens on it (the clock rendering timestamps without a line feed). *)
Theorem X26_capture_then_promote (settings : ZettelkastenSettings) (answer : string)
    (h : Host) :
  isEmpty answer = false ->
  fleetingPath settings h ∉ pathsOf h ->
  (forall k, singleLine (clock h k) = true) ->
  exists content,
    last (trace (snd (processCurrentNoteToPermanent
                        (withActiveFile (snd (createFleetingNote settings answer h))
                           {| path := fleetingPath settings h;
                              name := fileNameOf (fleetingPath settings h) |}))))
    = Some (OpenModal (ProcessingModal
                         {| path := fleetingPath settings h;
                            name := fileNameOf (fleetingPath settings h) |} content))
    /\ occursIn answer content.
Proof.
  intros Hanswer Hfresh Hclock.
  exists (fleetingNoteContent (clock h (S (ticks h)))
            (Js.sliceTo 19 (dashed (clock h (ticks h)))) answer).
  split; [|apply occursIn_template].
  rewrite (createFleetingNote_run settings answer h Hanswer).
  match goal with |- context [createNote ?p ?c ?h0] =>
    destruct (createNote_fresh p c h0 Hfresh) as (before & -> & _)
  end.
  cbn [snd notice emit files folders activeFile ticks clock remote trace].
  match goal with |- context [processCurrentNoteToPermanent ?after] =>
    set (h1 := after)
  end.
  rewrite (promote_fleeting h1
             {| path := fleetingPath settings h;
                name := fileNameOf (fleetingPath settings h) |}
             (fleetingNoteContent (clock h (S (ticks h)))
                (Js.sliceTo 19 (dashed (clock h (ticks h)))) answer)).
  - cbn [snd trace withTrace].
    rewrite last_app. reflexivity.
  - reflexivity.
  - unfold h1, withActiveFile. cbn [files path].
    apply contentAt_added. exact Hfresh.
  - apply fleetingNote_roundtrip, Hclock.
Qed.

Lemma X26_capture_then_promote_witness :
  exists content,
    last (trace (snd (processCurrentNoteToPermanent
                        (withActiveFile
                           (snd (createFleetingNote keyed "idea about X"
                                   (hostWith [] None (JsonBody (JObj [])))))
                           (note "Fleeting Notes/Fleeting-2024-05-06T07-08-09.md"
                                 "Fleeting-2024-05-06T07-08-09.md")))))
    = Some (OpenModal (ProcessingModal
                         (note "Fleeting Notes/Fleeting-2024-05-06T07-08-09.md"
                               "Fleeting-2024-05-06T07-08-09.md") content))
    /\ occursIn "idea about X" content.
Proof.
  refine (X26_capture_then_promote keyed "idea about X"
            (hostWith [] None (JsonBody (JObj []))) eq_refl _ (fun _ => eq_refl)).
  apply not_elem_of_nil.
Defined.

(** ** The dialogs *)












(** *** The structure note *)

Lemma forEach_untouched {A : Type} (act : A -> Async unit) (l : list A) :
  (forall x h, untouched h (snd (act x h))) ->
  forall h, untouched h (snd (forEach act l h)).
Proof.
  intros Hact. induction l as [|x l IH]; intros h; [apply untouched_refl|].
  cbn [forEach]. unfold mbind, Async_bind.
  pose proof (Hact x h) as H1.
  destruct (act x h) as [[u|msg] h1]; [|exact H1].
  eapply untouched_trans; [exact H1 | apply IH].
Qed.

Lemma collect_untouched {A B : Type} (act : A -> Async B) (l : list A) :
  (forall x h, untouched h (snd (act x h))) ->
  forall h, untouched h (snd (collect act l h)).
Proof.
  intros Hact. induction l as [|x l IH]; intros h; [apply untouched_refl|].
  cbn [collect]. unfold mbind, Async_bind.
  pose proof (Hact x h) as H1.
  destruct (act x h) as [[y|msg] h1]; [|exact H1].
  pose proof (IH h1) as H2.
  destruct (collect act l h1) as [[ys|msg] h2]; eapply untouched_trans; eassumption.
Qed.

Lemma relatedStart_untouched fileName h : untouched h (snd (relatedStart fileName h)).
Proof.
  unfold relatedStart, mbind, Async_bind, getAbstractFileByPath.
  destruct (fileAt fileName (files h)); [|apply untouched_refl].
  apply emit_untouched. reflexivity.
Qed.

Lemma relatedResult_untouched fileName h : untouched h (snd (relatedResult fileName h)).
Proof.
  unfold relatedResult, mbind, Async_bind, getAbstractFileByPath.
  destruct (fileAt fileName (files h)) as [f|]; [|apply untouched_refl].
  unfold readResult. destruct (contentAt (path f) (files h)); apply untouched_refl.
Qed.

Lemma createStructureNote_untouched settings topic relatedFiles h :
  untouched h (snd (createStructureNote settings topic relatedFiles h)).
Proof.
  unfold createStructureNote, mbind at 1, Async_bind at 1.
  pose proof (forEach_untouched relatedStart relatedFiles relatedStart_untouched h) as H1.
  destruct (forEach relatedStart relatedFiles h) as [[u|msg] h1]; [|exact H1].
  unfold mbind, Async_bind.
  pose proof (collect_untouched relatedResult relatedFiles relatedResult_untouched h1) as H2.
  destruct (collect relatedResult relatedFiles h1) as [[noteContents|msg] h2];
    [|eapply untouched_trans; eassumption].
  eapply untouched_trans; [exact H1|]. eapply untouched_trans; [exact H2|].
  apply callLLM_untouched.
Qed.

(** X28: the button Create Structure Note always returns, every failure
    being turned into a notice, and it never writes to the vault: when the
    generated text has arrived it shows "Created structure note for:
    <topic>" and drops the text, the vault being what it was.  With an
    empty topic or an empty selection it only shows the notice asking for
    one. *)
Theorem X28_structure_note_not_saved (settings : ZettelkastenSettings) (topic : string)
    (selectedNotes : list string) (h : Host) :
  fst (createStructureClicked settings topic selectedNotes h) = Returned tt
  /\ untouched h (snd (createStructureClicked settings topic selectedNotes h))
  /\ (forall generated h1,
        isEmpty topic = false ->
        selectedNotes <> [] ->
        createStructureNote settings topic selectedNotes h = (Returned generated, h1) ->
        snd (createStructureClicked settings topic selectedNotes h)
        = withTrace h1 (trace h1 ++ [ShowNotice ("Created structure note for: " +:+ topic)]))
  /\ (isEmpty topic = true ->
      createStructureClicked settings topic selectedNotes h
      = (Returned tt, withTrace h (trace h ++ [ShowNotice "Please enter a topic"])))
  /\ (isEmpty topic = false -> selectedNotes = [] ->
      createStructureClicked settings topic selectedNotes h
      = (Returned tt,
         withTrace h (trace h ++ [ShowNotice "Please select at least one note"]))).
Proof.
  unfold createStructureClicked.
  destruct (isEmpty topic) eqn:Htopic.
  - split; [|split; [|split; [|split]]]; try discriminate; try reflexivity.
    apply emit_untouched. reflexivity.
  - destruct selectedNotes as [|s0 sel].
    + split; [|split; [|split; [|split]]]; try discriminate; try reflexivity.
      * apply emit_untouched. reflexivity.
      * intros g h2 _ Hsel. congruence.
    + pose proof (createStructureNote_untouched settings topic (s0 :: sel) h) as H1.
      unfold tryCatch, mbind, Async_bind.
      destruct (createStructureNote settings topic (s0 :: sel) h) as [[generated|msg] h1];
        cbn [snd] in H1;
        (split; [|split; [|split; [|split]]]); try discriminate; try reflexivity.
      * eapply untouched_trans; [exact H1|]. apply emit_untouched. reflexivity.
      * intros g h2 _ _ Heq. injection Heq as _ <-. reflexivity.
      * eapply untouched_trans; [exact H1|]. apply emit_untouched. reflexivity.
Qed.

Lemma X28_structure_note_not_saved_witness :
  files (snd (createStructureClicked keyed "Notes" ["Permanent Notes/a.md"; "Drafts/c.md"]
                (hostWith structureVault None (JsonBody (chatShape "# Notes")))))
  = structureVault
  /\ last (trace (snd (createStructureClicked keyed "Notes"
                         ["Permanent Notes/a.md"; "Drafts/c.md"]
                         (hostWith structureVault None (JsonBody (chatShape "# Notes"))))))
     = Some (ShowNotice "Created structure note for: Notes").
Proof.
  destruct (X28_structure_note_not_saved keyed "Notes"
              ["Permanent Notes/a.md"; "Drafts/c.md"]
              (hostWith structureVault None (JsonBody (chatShape "# Notes"))))
    as (_ & (Hfiles & _) & Hsaved & _).
  split; [exact Hfiles|].
  erewrite Hsaved; [| reflexivity | discriminate | vm_compute; reflexivity].
  apply last_snoc.
Defined.

(** *** The notes of a topic *)

Lemma scanTopic_run keywords (F : list (TFile * string)) fs : forall relatedFiles h,
  files h = F ->
  (forall f, f ∈ fs -> is_Some (contentAt (path f) F)) ->
  scanTopic keywords fs relatedFiles h
  = (Returned (relatedFiles
               ++ List.map path
                    (List.filter
                       (fun f => hasKeywords keywords
                                   (default EmptyString (contentAt (path f) F)) f) fs)),
     withTrace h (trace h ++ readEvents fs)).
Proof.
  induction fs as [|f rest IH]; intros relatedFiles h HF Hread.
  - simpl. rewrite !app_nil_r, withTrace_same. reflexivity.
  - cbn [scanTopic]. unfold mbind at 1. unfold Async_bind at 1.
    rewrite vaultRead_run, HF.
    destruct (Hread f) as [c Hc]; [left|]. rewrite Hc.
    simpl List.filter. rewrite Hc. simpl default.
    set (h1 := withTrace h (trace h ++ [VaultRead (path f)])).
    assert (Hrest : forall g, g ∈ rest -> is_Some (contentAt (path g) F)).
    { intros g Hg. apply Hread. by right. }
    destruct (hasKeywords keywords c f).
    + rewrite (IH (relatedFiles ++ [path f]) h1 HF Hrest).
      unfold h1, withTrace; simpl. rewrite <- ?app_assoc. reflexivity.
    + rewrite (IH relatedFiles h1 HF Hrest).
      unfold h1, withTrace; simpl. rewrite <- ?app_assoc. reflexivity.
Qed.

Lemma includesText_empty s : includesText s EmptyString = true.
Proof. destruct s; reflexivity. Qed.

Lemma hasKeywords_blank keywords content f :
  EmptyString ∈ keywords -> hasKeywords keywords content f = true.
Proof.
  intros Hin. unfold hasKeywords. apply existsb_exists.
  exists EmptyString. split; [apply list_elem_of_In, Hin|].
  rewrite includesText_empty. reflexivity.
Qed.

Lemma topicFilesOf_listed settings h f :
  f ∈ topicFilesOf settings h -> is_Some (contentAt (path f) (files h)).
Proof.
  unfold topicFilesOf. rewrite list_elem_of_In, filter_In, <- list_elem_of_In.
  intros [Hf _]. apply contentAt_listed, Hf.
Qed.

(** X29: [findTopicNotes] always returns: the paths, in vault order, of
    the files under the configured [permanentNotesFolder] prefix whose
    lower-cased text or base name holds one of the keywords (the pieces of
    the lower-cased topic between single spaces).  When one of the
    keywords is the empty text (as for a topic that ends with a space),
    every text holds it: all those files are returned. *)
Theorem X29_findTopicNotes_result (settings : ZettelkastenSettings) (topic : string)
    (h : Host) :
  findTopicNotes settings topic h
  = (Returned (List.map path
                 (List.filter (fun f => hasKeywords (keywordsOf topic) (textOf h f) f)
                              (topicFilesOf settings h))),
     withTrace h (trace h ++ readEvents (topicFilesOf settings h)))
  /\ (EmptyString ∈ keywordsOf topic ->
      fst (findTopicNotes settings topic h)
      = Returned (List.map path (topicFilesOf settings h))).
Proof.
  assert (Hrun : findTopicNotes settings topic h
                 = (Returned (List.map path
                      (List.filter
                         (fun f => hasKeywords (keywordsOf topic) (textOf h f) f)
                         (topicFilesOf settings h))),
                    withTrace h (trace h ++ readEvents (topicFilesOf settings h)))).
  { unfold findTopicNotes, mbind, Async_bind, getFiles. cbv zeta.
    fold (topicFilesOf settings h). fold (keywordsOf topic).
    rewrite (scanTopic_run (keywordsOf topic) (files h) (topicFilesOf settings h) [] h
               eq_refl (topicFilesOf_listed settings h)).
    reflexivity. }
  split; [exact Hrun|].
  intros Hblank. rewrite Hrun. cbn [fst].
  assert (Hall : forall fs,
            List.filter (fun f => hasKeywords (keywordsOf topic) (textOf h f) f) fs = fs).
  { induction fs as [|f fs IH]; [reflexivity|].
    simpl. rewrite (hasKeywords_blank _ _ _ Hblank), IH. reflexivity. }
  rewrite Hall. reflexivity.
Qed.

Lemma X29_findTopicNotes_result_witness :
  fst (findTopicNotes keyed "zettelkasten " (hostWith structureVault None (JsonBody (JObj []))))
  = Returned ["Permanent Notes/a.md"; "Permanent Notes/b.md"].
Proof.
  refine (proj2 (X29_findTopicNotes_result keyed "zettelkasten "
                   (hostWith structureVault None (JsonBody (JObj [])))) _).
  vm_compute. right. left.
Defined.

(** *** Saving an outline *)

Lemma lastIndexOfSlash_none s : forall i found,
  Js.includesChar "/" s = false -> lastIndexOfSlash_from i found s = found.
Proof.
  induction s as [|c s IH]; intros i found Hs; [reflexivity|].
  simpl in *. apply orb_false_iff in Hs as [Hc Hs]. rewrite Hc. apply IH, Hs.
Qed.

Lemma afterLastSlash_none s : forall cur,
  Js.includesChar "/" s = false -> afterLastSlash_from cur s = cur +:+ s.
Proof.
  induction s as [|c s IH]; intros cur Hs; [symmetry; apply append_empty_r|].
  simpl in *. apply orb_false_iff in Hs as [Hc Hs].
  rewrite Hc, (IH _ Hs), append_assoc_string. reflexivity.
Qed.

Lemma lastIndexOfSlash_last a b : forall i found,
  Js.includesChar "/" b = false ->
  lastIndexOfSlash_from i found (a +:+ String "/" b) = Some (i + String.length a).
Proof.
  induction a as [|c a IH]; intros i found Hb.
  - change (EmptyString +:+ String "/" b) with (String "/" b).
    cbn [lastIndexOfSlash_from]. rewrite Ascii.eqb_refl.
    rewrite lastIndexOfSlash_none by exact Hb. simpl. f_equal. lia.
  - rewrite append_cons. cbn [lastIndexOfSlash_from]. rewrite IH by exact Hb.
    simpl. f_equal. lia.
Qed.

Lemma afterLastSlash_last a b : forall cur,
  Js.includesChar "/" b = false ->
  afterLastSlash_from cur (a +:+ String "/" b) = b.
Proof.
  induction a as [|c a IH]; intros cur Hb.
  - change (EmptyString +:+ String "/" b) with (String "/" b).
    cbn [afterLastSlash_from]. rewrite Ascii.eqb_refl.
    apply afterLastSlash_none, Hb.
  - rewrite append_cons. cbn [afterLastSlash_from].
    destruct (Ascii.eqb c "/"); apply IH, Hb.
Qed.

Lemma sliceTo_append a r : Js.sliceTo (String.length a) (a +:+ r) = a.
Proof.
  unfold Js.sliceTo. induction a as [|c a IH]; [destruct r; reflexivity|].
  rewrite append_cons. simpl. rewrite IH. reflexivity.
Qed.

Lemma includesChar_append c a b :
  Js.includesChar c (a +:+ b) = Js.includesChar c a || Js.includesChar c b.
Proof.
  induction a as [|x a IH]; [reflexivity|].
  rewrite append_cons. simpl. rewrite IH, orb_assoc. reflexivity.
Qed.

Lemma sanitize_clean s : Js.includesChar "/" (sanitize s) = false.
Proof.
  induction s as [|c s IH]; [reflexivity|].
  simpl. rewrite IH, orb_false_r.
  destruct (isAlphaNumeric c) eqn:Hc; [|reflexivity].
  destruct c as [[] [] [] [] [] [] [] []]; try reflexivity; discriminate.
Qed.

Lemma sanitize_alphabet s c :
  Js.includesChar c (sanitize s) = true -> isAlphaNumeric c = true \/ c = "-"%char.
Proof.
  induction s as [|x s IH]; [discriminate|].
  simpl. intros H. apply orb_true_iff in H as [H|H]; [|exact (IH H)].
  apply Ascii.eqb_eq in H. subst c.
  destruct (isAlphaNumeric x) eqn:Hx; [left; exact Hx | right; reflexivity].
Qed.

Lemma length_sanitize s : String.length (sanitize s) = String.length s.
Proof. induction s as [|c s IH]; [reflexivity|]. simpl. rewrite IH. reflexivity. Qed.

Lemma outlinePath_confined topic day :
  Js.includesChar "/" day = false ->
  folderPathOf (outlinePath topic day) = "Writing Projects"
  /\ fileNameOf (outlinePath topic day)
     = "Outline-" +:+ sanitize topic +:+ "-" +:+ day +:+ ".md".
Proof.
  intros Hday.
  assert (Hname : Js.includesChar "/"
                    ("Outline-" +:+ sanitize topic +:+ "-" +:+ day +:+ ".md") = false).
  { rewrite !includesChar_append, sanitize_clean, Hday. reflexivity. }
  split.
  - unfold folderPathOf, outlinePath.
    change ("Writing Projects/" +:+ "Outline-" +:+ sanitize topic +:+ "-" +:+ day +:+ ".md")
      with ("Writing Projects" +:+ String "/"
              ("Outline-" +:+ sanitize topic +:+ "-" +:+ day +:+ ".md")).
    rewrite lastIndexOfSlash_last by exact Hname.
    apply (sliceTo_append "Writing Projects").
  - unfold fileNameOf, outlinePath.
    change ("Writing Projects/" +:+ "Outline-" +:+ sanitize topic +:+ "-" +:+ day +:+ ".md")
      with ("Writing Projects" +:+ String "/"
              ("Outline-" +:+ sanitize topic +:+ "-" +:+ day +:+ ".md")).
    apply afterLastSlash_last, Hname.
Qed.

Lemma saveOutlineClicked_run topic text h :
  saveOutlineClicked topic text h
  = match createNote (outlinePath topic (Js.sliceTo 10 (clock h (ticks h))))
            (outlineContent topic (clock h (S (ticks h))) text)
            {| files := files h; folders := folders h; activeFile := activeFile h;
               ticks := S (S (ticks h)); clock := clock h; remote := remote h;
               trace := trace h |}
    with
    | (Returned _, h') => notice "Outline saved!" h'
    | (Thrown msg, h') => (Thrown msg, h')
    end.
Proof. reflexivity. Qed.

(** X30: whatever the topic holds (slashes, dots, line breaks), Save
    Outline writes directly into the folder "Writing Projects": the topic
    enters the path with every character that is not a letter or a digit
    replaced by a dash.  When no file has the path yet the handler returns
    after creating the file [Writing Projects/Outline-<topic>-<day>.md],
    and the only folder it may create is "Writing Projects" (the day, cut
    from the clock reading, holding no slash). *)
Theorem X30_outline_path_confined (topic text : string) (h : Host) :
  Js.includesChar "/" (Js.sliceTo 10 (clock h (ticks h))) = false ->
  outlinePath topic (Js.sliceTo 10 (clock h (ticks h))) ∉ pathsOf h ->
  fst (saveOutlineClicked topic text h) = Returned tt
  /\ vaultWrites (snd (saveOutlineClicked topic text h))
     = vaultWrites h
       ++ (if bool_decide ("Writing Projects" ∈ folders h)
              || bool_decide ("Writing Projects" ∈ pathsOf h)
           then [] else [VaultCreateFolder "Writing Projects"])
       ++ [VaultCreate (outlinePath topic (Js.sliceTo 10 (clock h (ticks h))))
             (outlineContent topic (clock h (S (ticks h))) text)]
  /\ fileNameOf (outlinePath topic (Js.sliceTo 10 (clock h (ticks h))))
     = "Outline-" +:+ sanitize topic +:+ "-" +:+ Js.sliceTo 10 (clock h (ticks h)) +:+ ".md"
  /\ String.length (sanitize topic) = String.length topic
  /\ (forall c, Js.includesChar c (sanitize topic) = true ->
                isAlphaNumeric c = true \/ c = "-"%char).
Proof.
  intros Hday Hfresh.
  destruct (outlinePath_confined topic _ Hday) as [Hfolder Hname].
  rewrite saveOutlineClicked_run.
  match goal with |- context [createNote ?p ?c ?h0] =>
    destruct (createNote_fresh p c h0 Hfresh) as (before & -> & Hbefore)
  end.
  rewrite Hfolder in Hbefore. subst before.
  cbn [fst snd notice emit]. split; [reflexivity|]. split; [|split; [exact Hname|split]].
  - unfold vaultWrites, pathsOf. cbn [trace files folders].
    rewrite !List.filter_app. simpl List.filter at 3. rewrite app_nil_r. f_equal.
    destruct (_ || _); reflexivity.
  - apply length_sanitize.
  - apply sanitize_alphabet.
Qed.

Lemma X30_outline_path_confined_witness :
  vaultWrites (snd (saveOutlineClicked "../../etc/passwd" "1. Intro"
                      (hostWith structureVault None (JsonBody (JObj [])))))
  = [VaultCreateFolder "Writing Projects";
     VaultCreate "Writing Projects/Outline-------etc-passwd-2024-05-06.md"
       (outlineContent "../../etc/passwd" "2024-05-06T07:08:09.010Z" "1. Intro")].
Proof.
  refine (proj1 (proj2 (X30_outline_path_confined "../../etc/passwd" "1. Intro"
                          (hostWith structureVault None (JsonBody (JObj []))) eq_refl _))).
  refine (bool_decide_unpack _ _). vm_compute. exact I.
Defined.
